(** * si7006-hwmon: the Si7006 temperature / humidity hwmon driver

    A shallow embedding of [si7006.c] and [si7006.h] and the properties of
    its sampling cache, its conversions and its read dispatch.

    The driver is sequential C running under [update_lock]; the embedding is
    a state monad over a [world] that holds the kernel tick counter
    [jiffies], the I2C client the driver talks to, the driver's private
    data, and what uninitialised locals find on the stack.  [mutex_lock] /
    [mutex_unlock] bracket the whole body of the two sampling functions and
    are the identity in this sequential semantics. *)

From Stdlib Require Import ZArith List Bool Lia.
From Stdlib Require Import Strings.Byte.
Import ListNotations.
Local Open Scope Z_scope.

(* ------------------------------------------------------------------ *)
(** ** C integer types *)

Module Cint.

(** Value of [x] reduced to an unsigned [w]-bit integer. *)
Definition wrap_unsigned (w x : Z) : Z := x mod 2 ^ w.

(** Value of [x] reduced to a two's complement [w]-bit integer. *)
Definition wrap_signed (w x : Z) : Z :=
  (x + 2 ^ (w - 1)) mod 2 ^ w - 2 ^ (w - 1).

(** [int] and [long long] on every Linux target. *)
Definition int (x : Z) : Z := wrap_signed 32 x.
Definition long_long (x : Z) : Z := wrap_signed 64 x.

End Cint.

(* ------------------------------------------------------------------ *)
(** ** What the kernel build supplies

    [si7006.c] leaves these to the compiler and to the kernel headers it
    includes: whether plain [char] is signed, the width of [long], the tick
    rate [HZ], and the numbering of the hwmon attribute enumerations of
    [<linux/hwmon.h>]. *)

Record kernel : Type := {
  char_is_signed : bool;
  BITS_PER_LONG : Z;
  HZ : Z;
  hwmon_temp_input : Z;
  hwmon_temp_max : Z;
  hwmon_temp_min : Z;
  hwmon_humidity_input : Z;
  hwmon_humidity_max : Z;
  hwmon_humidity_min : Z
}.

(** A sane build: [long] is 32 or 64 bits wide, [HZ] is a positive tick rate
    that fits a [long] with room to spare, and the [case] labels of every
    [switch] are pairwise distinct (the compiler rejects duplicates). *)
Definition kernel_ok (k : kernel) : Prop :=
  (BITS_PER_LONG k = 32 \/ BITS_PER_LONG k = 64) /\
  0 < HZ k < 2 ^ 30 /\
  hwmon_temp_input k <> hwmon_temp_max k /\
  hwmon_temp_input k <> hwmon_temp_min k /\
  hwmon_temp_max k <> hwmon_temp_min k /\
  hwmon_humidity_input k <> hwmon_humidity_max k /\
  hwmon_humidity_input k <> hwmon_humidity_min k /\
  hwmon_humidity_max k <> hwmon_humidity_min k.

(** The board the driver is written for: a Raspberry Pi compute module
    (32-bit ARM, where plain [char] is unsigned) running a 5.x kernel with
    [CONFIG_HZ=100]. *)
Definition rpi_cm3 : kernel := {|
  char_is_signed := false;
  BITS_PER_LONG := 32;
  HZ := 100;
  hwmon_temp_input := 1;
  hwmon_temp_max := 7;
  hwmon_temp_min := 5;
  hwmon_humidity_input := 1;
  hwmon_humidity_max := 5;
  hwmon_humidity_min := 3
|}.

(** A 64-bit x86 build of the same source, where plain [char] is signed. *)
Definition x86_64_signed_char : kernel := {|
  char_is_signed := true;
  BITS_PER_LONG := 64;
  HZ := 250;
  hwmon_temp_input := 1;
  hwmon_temp_max := 7;
  hwmon_temp_min := 5;
  hwmon_humidity_input := 1;
  hwmon_humidity_max := 5;
  hwmon_humidity_min := 3
|}.

(** [enum hwmon_sensor_types] of [<linux/hwmon.h>]. *)
Inductive hwmon_sensor_types : Type :=
| hwmon_chip | hwmon_temp | hwmon_in | hwmon_curr | hwmon_power
| hwmon_energy | hwmon_humidity | hwmon_fan | hwmon_pwm | hwmon_intrusion.

Definition EIO : Z := 5.
Definition ENXIO : Z := 6.
Definition EOPNOTSUPP : Z := 95.
Definition S_IRUGO : Z := 292. (* 0444 *)

(* ------------------------------------------------------------------ *)
(** ** si7006.h *)

Definition ID_SI7006 : Z := 6.
Definition SI7006_NUM_CH_TEMP : Z := 1.
Definition SI7006_MEAS_REL_HUMIDITY_MASTER_MODE : byte := xe5.
Definition SI7006_MEAS_TEMP_MASTER_MODE : byte := xe3.

(** [struct si7006_private] without its [client] pointer and its mutex: the
    client lives in the [world] next to it. *)
Record si7006_private : Type := {
  temperature_valid : bool;
  max_temperature : Z;
  temperature : Z;
  min_temperature : Z;
  temperature_updated : Z;
  humidity_valid : bool;
  max_humidity : Z;
  humidity : Z;
  min_humidity : Z;
  humidity_updated : Z
}.

(** What [devm_kzalloc] hands to [si7006_i2c_probe]: all bytes zero. *)
Definition kzalloc_si7006_private : si7006_private := {|
  temperature_valid := false;
  max_temperature := 0; temperature := 0; min_temperature := 0;
  temperature_updated := 0;
  humidity_valid := false;
  max_humidity := 0; humidity := 0; min_humidity := 0;
  humidity_updated := 0
|}.

Definition set_temperature_valid (b : bool) (d : si7006_private) :=
  {| temperature_valid := b;
     max_temperature := max_temperature d; temperature := temperature d;
     min_temperature := min_temperature d;
     temperature_updated := temperature_updated d;
     humidity_valid := humidity_valid d;
     max_humidity := max_humidity d; humidity := humidity d;
     min_humidity := min_humidity d; humidity_updated := humidity_updated d |}.

Definition set_max_temperature (v : Z) (d : si7006_private) :=
  {| temperature_valid := temperature_valid d;
     max_temperature := v; temperature := temperature d;
     min_temperature := min_temperature d;
     temperature_updated := temperature_updated d;
     humidity_valid := humidity_valid d;
     max_humidity := max_humidity d; humidity := humidity d;
     min_humidity := min_humidity d; humidity_updated := humidity_updated d |}.

Definition set_temperature (v : Z) (d : si7006_private) :=
  {| temperature_valid := temperature_valid d;
     max_temperature := max_temperature d; temperature := v;
     min_temperature := min_temperature d;
     temperature_updated := temperature_updated d;
     humidity_valid := humidity_valid d;
     max_humidity := max_humidity d; humidity := humidity d;
     min_humidity := min_humidity d; humidity_updated := humidity_updated d |}.

Definition set_min_temperature (v : Z) (d : si7006_private) :=
  {| temperature_valid := temperature_valid d;
     max_temperature := max_temperature d; temperature := temperature d;
     min_temperature := v;
     temperature_updated := temperature_updated d;
     humidity_valid := humidity_valid d;
     max_humidity := max_humidity d; humidity := humidity d;
     min_humidity := min_humidity d; humidity_updated := humidity_updated d |}.

Definition set_temperature_updated (v : Z) (d : si7006_private) :=
  {| temperature_valid := temperature_valid d;
     max_temperature := max_temperature d; temperature := temperature d;
     min_temperature := min_temperature d;
     temperature_updated := v;
     humidity_valid := humidity_valid d;
     max_humidity := max_humidity d; humidity := humidity d;
     min_humidity := min_humidity d; humidity_updated := humidity_updated d |}.

Definition set_humidity_valid (b : bool) (d : si7006_private) :=
  {| temperature_valid := temperature_valid d;
     max_temperature := max_temperature d; temperature := temperature d;
     min_temperature := min_temperature d;
     temperature_updated := temperature_updated d;
     humidity_valid := b;
     max_humidity := max_humidity d; humidity := humidity d;
     min_humidity := min_humidity d; humidity_updated := humidity_updated d |}.

Definition set_max_humidity (v : Z) (d : si7006_private) :=
  {| temperature_valid := temperature_valid d;
     max_temperature := max_temperature d; temperature := temperature d;
     min_temperature := min_temperature d;
     temperature_updated := temperature_updated d;
     humidity_valid := humidity_valid d;
     max_humidity := v; humidity := humidity d;
     min_humidity := min_humidity d; humidity_updated := humidity_updated d |}.

Definition set_humidity (v : Z) (d : si7006_private) :=
  {| temperature_valid := temperature_valid d;
     max_temperature := max_temperature d; temperature := temperature d;
     min_temperature := min_temperature d;
     temperature_updated := temperature_updated d;
     humidity_valid := humidity_valid d;
     max_humidity := max_humidity d; humidity := v;
     min_humidity := min_humidity d; humidity_updated := humidity_updated d |}.

Definition set_min_humidity (v : Z) (d : si7006_private) :=
  {| temperature_valid := temperature_valid d;
     max_temperature := max_temperature d; temperature := temperature d;
     min_temperature := min_temperature d;
     temperature_updated := temperature_updated d;
     humidity_valid := humidity_valid d;
     max_humidity := max_humidity d; humidity := humidity d;
     min_humidity := v; humidity_updated := humidity_updated d |}.

Definition set_humidity_updated (v : Z) (d : si7006_private) :=
  {| temperature_valid := temperature_valid d;
     max_temperature := max_temperature d; temperature := temperature d;
     min_temperature := min_temperature d;
     temperature_updated := temperature_updated d;
     humidity_valid := humidity_valid d;
     max_humidity := max_humidity d; humidity := humidity d;
     min_humidity := min_humidity d; humidity_updated := v |}.

(* ------------------------------------------------------------------ *)
(** ** The I2C bus and the world the driver runs in *)

(** One message put on the bus by the master. *)
Inductive i2c_msg : Type :=
| I2C_WR (bytes : list byte)     (* i2c_master_send *)
| I2C_RD (count : nat).          (* i2c_master_recv *)

(** What the adapter and the chip make of one message: the value the
    [i2c_master_*] call returns (negative errno or a byte count), the bytes
    a read delivers (they are written over the first bytes of the caller's
    buffer; the rest of the buffer stays as it was), and the ticks the call
    took. *)
Record i2c_reply : Type := {
  reply_ret : Z;
  reply_data : list byte;
  reply_ticks : N
}.

(** The client: an arbitrary deterministic device, whose answer may depend
    on everything it was sent before, and the messages sent so far. *)
Record i2c_client : Type := {
  chip : list i2c_msg -> i2c_msg -> i2c_reply;
  wire : list i2c_msg
}.

(** The world: the tick counter, the client, the driver's private data, and
    [stack], the bytes an uninitialised local array finds in its stack
    frame.  They are indeterminate in C: here they are an arbitrary function
    of the position in the array and of the moment of the call, given by the
    bus history so far, so that no two transactions need see the same. *)
Record world : Type := {
  jiffies : Z;
  client : i2c_client;
  drvdata : si7006_private;
  stack : list i2c_msg -> nat -> byte
}.

(** A transport transaction starts with the command write: the number of
    transactions issued so far is the number of writes on the wire. *)
Definition is_write (m : i2c_msg) : bool :=
  match m with I2C_WR _ => true | I2C_RD _ => false end.

Definition transactions (w : world) : nat :=
  length (filter is_write (wire (client w))).

(** *** The state monad of driver code *)

Definition M (A : Type) : Type := world -> A * world.

Definition ret {A} (a : A) : M A := fun w => (a, w).
Definition bind {A B} (m : M A) (f : A -> M B) : M B :=
  fun w => let (a, w') := m w in f a w'.

Declare Scope drv_scope.
Delimit Scope drv_scope with drv.
Notation "x <- m ;; f" := (bind m (fun x => f))
  (at level 61, m at next level, right associativity) : drv_scope.
Notation "' p <- m ;; f" := (bind m (fun p => f))
  (at level 61, p pattern, m at next level, right associativity) : drv_scope.
Notation "m ;; f" := (bind m (fun _ => f))
  (at level 61, right associativity) : drv_scope.
Local Open Scope drv_scope.

Definition dev_get_drvdata : M si7006_private := fun w => (drvdata w, w).

(** A store through the [data] pointer. *)
Definition store (f : si7006_private -> si7006_private) : M unit :=
  fun w => (tt, {| jiffies := jiffies w; client := client w;
                   drvdata := f (drvdata w); stack := stack w |}).

(** [char buf[n];]: a local array, uninitialised. *)
Definition alloca (n : nat) : M (list byte) :=
  fun w => (map (stack w (wire (client w))) (seq 0 n), w).

(** [buf[i] = b;] *)
Fixpoint buf_set (buf : list byte) (i : nat) (b : byte) : list byte :=
  match buf, i with
  | [], _ => []
  | _ :: rest, O => b :: rest
  | b0 :: rest, S i' => b0 :: buf_set rest i' b
  end.

(** The buffer [buf] after [data] has been written over its first bytes. *)
Definition overlay (data buf : list byte) : list byte :=
  data ++ skipn (length data) buf.

Section Driver.

Variable k : kernel.

Definition unsigned_long (x : Z) : Z := Cint.wrap_unsigned (BITS_PER_LONG k) x.
Definition long (x : Z) : Z := Cint.wrap_signed (BITS_PER_LONG k) x.

(** Reading the volatile tick counter. *)
Definition read_jiffies : M Z := fun w => (jiffies w, w).

(** One bus message: the chip answers, the message is on the wire, and
    the tick counter has moved on by the time the call took. *)
Definition i2c_transfer (m : i2c_msg) : M i2c_reply :=
  fun w =>
    let r := chip (client w) (wire (client w)) m in
    (r, {| jiffies := unsigned_long (jiffies w + Z.of_N (reply_ticks r));
           client := {| chip := chip (client w);
                        wire := wire (client w) ++ [m] |};
           drvdata := drvdata w; stack := stack w |}).

(** [i2c_master_send(client, buf, count)] *)
Definition i2c_master_send (buf : list byte) (count : nat) : M Z :=
  r <- i2c_transfer (I2C_WR (firstn count buf)) ;;
  ret (reply_ret r).

(** [i2c_master_recv(client, buf, count)]: the return value and the new
    contents of [buf], in which at most [count] bytes have been replaced by
    those delivered. *)
Definition i2c_master_recv (buf : list byte) (count : nat)
  : M (Z * list byte) :=
  r <- i2c_transfer (I2C_RD count) ;;
  ret (reply_ret r, overlay (firstn count (reply_data r)) buf).

(** The value of [buf[i]] in an expression: a [char] promoted to [int]. *)
Definition char_to_int (b : byte) : Z :=
  let u := Z.of_N (Byte.to_N b) in
  if char_is_signed k && (128 <=? u) then u - 256 else u.

Definition buf_at (buf : list byte) (i : nat) : Z :=
  char_to_int (nth i buf x00).

(** [code = buf[1] + buf[0]*256;] *)
Definition raw_code (buf : list byte) : Z :=
  Cint.int (buf_at buf 1 + Cint.int (buf_at buf 0 * 256)).

(** [temp = ((long long)(code)*175720)/65536-46850; *val = (long)temp;] *)
Definition temperature_of_code (code : Z) : Z :=
  long (Cint.long_long
          (Z.quot (Cint.long_long (Cint.long_long code * 175720)) 65536
           - 46850)).

(** [temp = ((long long)(code)*125000)/65536-6000; *val = (long)temp;] *)
Definition humidity_of_code (code : Z) : Z :=
  long (Cint.long_long
          (Z.quot (Cint.long_long (Cint.long_long code * 125000)) 65536
           - 6000)).

(** The [int] return value and the contents of [*val] on return. *)
Definition si7006_get_master_temperature (val : Z) : M (Z * Z) :=
  buf <- alloca 6 ;;
  let buf := buf_set buf 0 SI7006_MEAS_TEMP_MASTER_MODE in
  error <- i2c_master_send buf 1 ;;
  if error <? 0 then ret (error, val) else
  '(error, buf) <- i2c_master_recv buf 2 ;;
  if error <? 0 then ret (error, val) else
  let code := raw_code buf in
  ret (0, temperature_of_code code).

Definition si7006_get_master_humidity (val : Z) : M (Z * Z) :=
  buf <- alloca 6 ;;
  let buf := buf_set buf 0 SI7006_MEAS_REL_HUMIDITY_MASTER_MODE in
  error <- i2c_master_send buf 1 ;;
  if error <? 0 then ret (error, val) else
  '(error, buf) <- i2c_master_recv buf 2 ;;
  if error <? 0 then ret (error, val) else
  let code := raw_code buf in
  ret (0, humidity_of_code code).

(** [time_after(a, b)] of [<linux/jiffies.h>]: [((long)((b) - (a)) < 0)]
    on [unsigned long] operands. *)
Definition time_after (a b : Z) : bool :=
  long (unsigned_long (b - a)) <? 0.

(** An [if] without [else] around a statement. *)
Definition when (c : bool) (body : M unit) : M unit :=
  if c then body else ret tt.

Definition si7006_get_temperature : M Z :=
  data <- dev_get_drvdata ;;
  let temperature' := 0 in (* long temperature=0; *)
  now <- read_jiffies ;;
  if time_after now (unsigned_long (temperature_updated data + HZ k))
     || negb (temperature_valid data)
  then
    '(r, temperature') <- si7006_get_master_temperature temperature' ;;
    if r <? 0 then ret temperature' (* goto error *) else
    store (set_temperature temperature') ;;
    now <- read_jiffies ;;
    store (set_temperature_updated now) ;;
    data <- dev_get_drvdata ;;
    (if temperature_valid data then
       data <- dev_get_drvdata ;;
       when (temperature' >? max_temperature data)
            (store (set_max_temperature temperature')) ;;
       data <- dev_get_drvdata ;;
       when (temperature' <? min_temperature data)
            (store (set_min_temperature temperature'))
     else
       store (set_min_temperature temperature') ;;
       store (set_max_temperature temperature') ;;
       store (set_temperature_valid true)) ;;
    ret temperature'
  else
    ret (temperature data).

Definition si7006_get_temperature_max : M Z :=
  data <- dev_get_drvdata ;; ret (max_temperature data).

Definition si7006_get_temperature_min : M Z :=
  data <- dev_get_drvdata ;; ret (min_temperature data).

Definition si7006_get_humidity : M Z :=
  data <- dev_get_drvdata ;;
  let humidity' := 0 in (* long humidity=0; *)
  now <- read_jiffies ;;
  if time_after now (unsigned_long (humidity_updated data + HZ k))
     || negb (humidity_valid data)
  then
    '(r, humidity') <- si7006_get_master_humidity humidity' ;;
    if r <? 0 then ret humidity' (* goto error *) else
    store (set_humidity humidity') ;;
    now <- read_jiffies ;;
    store (set_humidity_updated now) ;;
    data <- dev_get_drvdata ;;
    (if humidity_valid data then
       data <- dev_get_drvdata ;;
       when (humidity' >? max_humidity data)
            (store (set_max_humidity humidity')) ;;
       data <- dev_get_drvdata ;;
       when (humidity' <? min_humidity data)
            (store (set_min_humidity humidity'))
     else
       store (set_min_humidity humidity') ;;
       store (set_max_humidity humidity') ;;
       store (set_humidity_valid true)) ;;
    ret humidity'
  else
    ret (humidity data).

Definition si7006_get_humidity_max : M Z :=
  data <- dev_get_drvdata ;; ret (max_humidity data).

Definition si7006_get_humidity_min : M Z :=
  data <- dev_get_drvdata ;; ret (min_humidity data).

(** The read methods return the [int] status and the contents of [*val]
    on return ([val] is what the caller's variable held before). *)
Definition si7006_read_temperature (attr channel val : Z) : M (Z * Z) :=
  if attr =? hwmon_temp_input k then
    if channel <? SI7006_NUM_CH_TEMP then
      v <- si7006_get_temperature ;; ret (0, v)
    else ret (- EOPNOTSUPP, val)
  else if attr =? hwmon_temp_max k then
    if channel <? SI7006_NUM_CH_TEMP then
      v <- si7006_get_temperature_max ;; ret (0, v)
    else ret (- EOPNOTSUPP, val)
  else if attr =? hwmon_temp_min k then
    if channel <? SI7006_NUM_CH_TEMP then
      v <- si7006_get_temperature_min ;; ret (0, v)
    else ret (- EOPNOTSUPP, val)
  else ret (- EOPNOTSUPP, val).

Definition si7006_read_humidity (attr channel val : Z) : M (Z * Z) :=
  if attr =? hwmon_humidity_input k then
    if channel <? SI7006_NUM_CH_TEMP then
      v <- si7006_get_humidity ;; ret (0, v)
    else ret (- EOPNOTSUPP, val)
  else if attr =? hwmon_humidity_max k then
    if channel <? SI7006_NUM_CH_TEMP then
      v <- si7006_get_humidity_max ;; ret (0, v)
    else ret (- EOPNOTSUPP, val)
  else if attr =? hwmon_humidity_min k then
    if channel <? SI7006_NUM_CH_TEMP then
      v <- si7006_get_humidity_min ;; ret (0, v)
    else ret (- EOPNOTSUPP, val)
  else ret (- EOPNOTSUPP, val).

Definition si7006_read (type : hwmon_sensor_types) (attr channel val : Z)
  : M (Z * Z) :=
  match type with
  | hwmon_temp => si7006_read_temperature attr channel val
  | hwmon_humidity => si7006_read_humidity attr channel val
  | _ => ret (- EOPNOTSUPP, val)
  end.

(** [si7006_get_device_id]: status and the contents of [*id]. *)
Definition si7006_get_device_id (id : Z) : M (Z * Z) :=
  buf <- alloca 6 ;;
  let buf := buf_set buf 0 xfc in
  let buf := buf_set buf 1 xc9 in
  error <- i2c_master_send buf 2 ;;
  if error <? 0 then ret (error, id) else
  '(error, buf) <- i2c_master_recv buf 6 ;;
  if error <? 0 then ret (error, id) else
  ret (0, buf_at buf 0).

(** [si7006_i2c_probe], with the allocation and the hwmon registration
    succeeding: the private data starts out zeroed, and the probe fails
    unless the chip answers with its identifier. *)
Definition si7006_i2c_probe : M Z :=
  store (fun _ => kzalloc_si7006_private) ;;
  let chip_id := 0 in
  '(_, chip_id) <- si7006_get_device_id chip_id ;;
  if negb (chip_id =? ID_SI7006) then ret (- ENXIO) else
  ret 0.

End Driver.

(** [si7006_read_string]: status and the label stored through [str]. *)
Definition si7006_read_string (type : hwmon_sensor_types)
  : Z * option (list byte) :=
  match type with
  | hwmon_temp =>
      (0, Some [x42; x4f; x41; x52; x44; x20; x54; x45; x4d; x50])
  | hwmon_humidity =>
      (0, Some [x42; x4f; x41; x52; x44; x20; x48; x52])
  | _ => (- EOPNOTSUPP, None)
  end.

Definition si7006_is_visible (k : kernel) (type : hwmon_sensor_types)
  (attr channel : Z) : Z :=
  match type with
  | hwmon_temp =>
      if (attr =? hwmon_temp_input k) || (attr =? hwmon_temp_max k)
         || (attr =? hwmon_temp_min k)
      then S_IRUGO else 0
  | hwmon_humidity =>
      if (attr =? hwmon_humidity_input k) || (attr =? hwmon_humidity_max k)
         || (attr =? hwmon_humidity_min k)
      then S_IRUGO else 0
  | _ => 0
  end.

(* ------------------------------------------------------------------ *)
(** ** Model devices for concrete runs *)

Definition reply (r : Z) (data : list byte) (ticks : N) : i2c_reply :=
  {| reply_ret := r; reply_data := data; reply_ticks := ticks |}.

(** A healthy Si7006 that measures the same code [b0 b1] every time: writes
    are acknowledged, the 6-byte identification read starts with the chip
    identifier, and a measurement read takes one tick. *)
Definition si7006_chip (b0 b1 : byte) : list i2c_msg -> i2c_msg -> i2c_reply :=
  fun _ m =>
    match m with
    | I2C_WR bytes => reply (Z.of_nat (length bytes)) [] 0
    | I2C_RD 6 => reply 6 [x06; xff; xff; xff; xff; xff] 0
    | I2C_RD n => reply (Z.of_nat n) [b0; b1] 1
    end.

(** A bus on which nothing answers: every message fails with [-EIO]. *)
Definition dead_bus : list i2c_msg -> i2c_msg -> i2c_reply :=
  fun _ _ => reply (- EIO) [] 0.

(** A bus whose reads report success but deliver no byte at all. *)
Definition mute_chip : list i2c_msg -> i2c_msg -> i2c_reply :=
  fun _ m =>
    match m with
    | I2C_WR bytes => reply (Z.of_nat (length bytes)) [] 0
    | I2C_RD n => reply (Z.of_nat n) [] 0
    end.

(** A chip that is healthy except for a glitch: the messages number [lo] to
    [hi - 1] (counting from 0) fail like on a dead bus. *)
Definition glitch_chip (lo hi : nat) (b0 b1 : byte)
  : list i2c_msg -> i2c_msg -> i2c_reply :=
  fun history m =>
    if ((lo <=? length history) && (length history <? hi))%nat
    then dead_bus history m
    else si7006_chip b0 b1 history m.

(** A board at tick [now], nothing sent yet, private data zeroed, and
    [0xAA] in every byte of the stack. *)
Definition boot (c : list i2c_msg -> i2c_msg -> i2c_reply) (now : Z) : world :=
  {| jiffies := now;
     client := {| chip := c; wire := [] |};
     drvdata := kzalloc_si7006_private;
     stack := fun _ _ => xaa |}.

(* ------------------------------------------------------------------ *)
(** ** The two quantities seen through one interface

    The source keeps one set of fields and one set of functions per
    quantity.  The views below select them by quantity, so that a property
    can be stated once for both. *)

Inductive quantity : Type := Temperature | Humidity.
Inductive attribute : Type := Input | Max | Min.

(** The five fields the driver keeps for one quantity. *)
Record measurement : Type := {
  value : Z;
  minimum : Z;
  maximum : Z;
  valid : bool;
  last_updated : Z
}.

Definition measurement_of (q : quantity) (d : si7006_private) : measurement :=
  match q with
  | Temperature =>
      {| value := temperature d; minimum := min_temperature d;
         maximum := max_temperature d; valid := temperature_valid d;
         last_updated := temperature_updated d |}
  | Humidity =>
      {| value := humidity d; minimum := min_humidity d;
         maximum := max_humidity d; valid := humidity_valid d;
         last_updated := humidity_updated d |}
  end.

Definition get_current (k : kernel) (q : quantity) : M Z :=
  match q with
  | Temperature => si7006_get_temperature k
  | Humidity => si7006_get_humidity k
  end.

Definition get_max (q : quantity) : M Z :=
  match q with
  | Temperature => si7006_get_temperature_max
  | Humidity => si7006_get_humidity_max
  end.

Definition get_min (q : quantity) : M Z :=
  match q with
  | Temperature => si7006_get_temperature_min
  | Humidity => si7006_get_humidity_min
  end.

Definition get_master (k : kernel) (q : quantity) (val : Z) : M (Z * Z) :=
  match q with
  | Temperature => si7006_get_master_temperature k val
  | Humidity => si7006_get_master_humidity k val
  end.

Definition convert (k : kernel) (q : quantity) (code : Z) : Z :=
  match q with
  | Temperature => temperature_of_code k code
  | Humidity => humidity_of_code k code
  end.

Definition command (q : quantity) : byte :=
  match q with
  | Temperature => SI7006_MEAS_TEMP_MASTER_MODE
  | Humidity => SI7006_MEAS_REL_HUMIDITY_MASTER_MODE
  end.

Definition sensor_type (q : quantity) : hwmon_sensor_types :=
  match q with Temperature => hwmon_temp | Humidity => hwmon_humidity end.

Definition attr_code (k : kernel) (q : quantity) (a : attribute) : Z :=
  match q, a with
  | Temperature, Input => hwmon_temp_input k
  | Temperature, Max => hwmon_temp_max k
  | Temperature, Min => hwmon_temp_min k
  | Humidity, Input => hwmon_humidity_input k
  | Humidity, Max => hwmon_humidity_max k
  | Humidity, Min => hwmon_humidity_min k
  end.

Definition accessor (k : kernel) (q : quantity) (a : attribute) : M Z :=
  match a with
  | Input => get_current k q
  | Max => get_max q
  | Min => get_min q
  end.

(** The condition under which the sampling function of [q] goes to the bus:
    the test of its first [if], evaluated in [w]. *)
Definition stale (k : kernel) (q : quantity) (w : world) : bool :=
  let m := measurement_of q (drvdata w) in
  time_after k (jiffies w) (unsigned_long k (last_updated m + HZ k))
  || negb (valid m).

(** The status a transport transaction for [q] returns when started in
    [w]; the transaction fails when it is negative. *)
Definition transport_status (k : kernel) (q : quantity) (w : world) : Z :=
  fst (fst (get_master k q 0 w)).

(** The buffer of a measurement transaction started in [w], after its
    read: the bytes delivered, over the command byte and what the stack
    held. *)
Definition received (q : quantity) (w : world) : list byte :=
  overlay
    (firstn 2
       (reply_data (chip (client w) (wire (client w) ++ [I2C_WR [command q]])
                         (I2C_RD 2))))
    (buf_set (map (stack w (wire (client w))) (seq 0 6)) 0 (command q)).

(** Ticks from the time stamp [updated] to [now], as the subtraction of two
    [unsigned long] yields them. *)
Definition elapsed (k : kernel) (now updated : Z) : Z :=
  unsigned_long k (now - updated).

(** The window in which [time_after] sees [now] as later than the sample:
    more than [HZ] ticks have passed, and not so many that the signed
    difference has wrapped. *)
Definition refresh_due (k : kernel) (now updated : Z) : Prop :=
  HZ k < elapsed k now updated <= HZ k + 2 ^ (BITS_PER_LONG k - 1).

(** Time passing between two calls into the driver. *)
Definition idle (k : kernel) (ticks : Z) : M unit :=
  fun w => (tt, {| jiffies := unsigned_long k (jiffies w + ticks);
                   client := client w; drvdata := drvdata w;
                   stack := stack w |}).

(** Two reads of the current value of [q], [ticks] apart. *)
Definition get_current_twice (k : kernel) (q : quantity) (ticks : Z)
  : M (Z * Z) :=
  v1 <- get_current k q ;;
  idle k ticks ;;
  v2 <- get_current k q ;;
  ret (v1, v2).

(** What the host can do to a probed device: call the read method, or let
    time pass. *)
Inductive step (k : kernel) : world -> world -> Prop :=
| step_read (type : hwmon_sensor_types) (attr channel val : Z) (w : world) :
    step k w (snd (si7006_read k type attr channel val w))
| step_idle (ticks : Z) (w : world) :
    step k w (snd (idle k ticks w)).

Inductive steps (k : kernel) : world -> world -> Prop :=
| steps_refl (w : world) : steps k w w
| steps_trans (w1 w2 w3 : world) :
    steps k w1 w2 -> step k w2 w3 -> steps k w1 w3.

(** The states of the driver: those a successful probe leaves, and those
    the host's calls lead to from there. *)
Inductive reachable (k : kernel) : world -> Prop :=
| reach_probe (w : world) :
    fst (si7006_i2c_probe k w) = 0 ->
    reachable k (snd (si7006_i2c_probe k w))
| reach_step (w w' : world) :
    reachable k w -> step k w w' -> reachable k w'.

Definition extrema_ok (m : measurement) : Prop :=
  valid m = true -> minimum m <= value m <= maximum m.

(* ------------------------------------------------------------------ *)
(** ** The specification's own wording, for comparison *)

(** Staleness as the specification words it:
    [valid == false OR (now - last_updated) >= refresh_interval]. *)
Definition spec_stale (m : measurement) (now refresh_interval : Z) : bool :=
  negb (valid m) || (refresh_interval <=? now - last_updated m).

(** The conversions as the specification words them. *)
Definition spec_temp_milliC (code : Z) : Z :=
  Z.quot (code * 175720) 65536 - 46850.

Definition spec_humidity_milliPct (code : Z) : Z :=
  Z.quot (code * 125000) 65536 - 6000.

(** The read facade as the specification words it: quantity, then channel,
    then attribute; then the dispatch to the accessor. *)
Definition quantity_kind (type : hwmon_sensor_types) : option quantity :=
  match type with
  | hwmon_temp => Some Temperature
  | hwmon_humidity => Some Humidity
  | _ => None
  end.

Definition attribute_kind (k : kernel) (q : quantity) (attr : Z)
  : option attribute :=
  find (fun a => attr =? attr_code k q a) [Input; Max; Min].

Definition spec_read (k : kernel) (type : hwmon_sensor_types)
  (attr channel val : Z) : M (Z * Z) :=
  match quantity_kind type with
  | None => ret (- EOPNOTSUPP, val)
  | Some q =>
      if channel <? 1 then
        match attribute_kind k q attr with
        | None => ret (- EOPNOTSUPP, val)
        | Some a => v <- accessor k q a ;; ret (0, v)
        end
      else ret (- EOPNOTSUPP, val)
  end.

(** Idempotence as the specification words it: the two calls return the
    same value and make exactly one transport transaction between them. *)
Definition idempotent_pair (k : kernel) (q : quantity) (ticks : Z)
  (w : world) : Prop :=
  let '(v1, v2, w') := get_current_twice k q ticks w in
  v1 = v2 /\ transactions w' = S (transactions w).

(* ------------------------------------------------------------------ *)
(** ** Concrete runs *)

(** A board whose sensor reads code [0x664c] (23.367 degrees), sampled once
    at tick 5000 and left alone for five seconds.  The third message on the
    bus (the command of the next transaction) will fail. *)
Definition sampled_then_glitch : world :=
  snd (idle rpi_cm3 500
         (snd (si7006_get_temperature rpi_cm3
                 (boot (glitch_chip 2 3 x66 x4c) 5000)))).

(** The same board with a healthy bus. *)
Definition sampled_healthy : world :=
  snd (idle rpi_cm3 500
         (snd (si7006_get_temperature rpi_cm3
                 (boot (si7006_chip x66 x4c) 5000)))).

(** The same board exactly [HZ] ticks after its sample. *)
Definition sampled_one_second_ago : world :=
  snd (idle rpi_cm3 (HZ rpi_cm3)
         (snd (si7006_get_temperature rpi_cm3
                 (boot (si7006_chip x66 x4c) 5000)))).

(* ------------------------------------------------------------------ *)
(** ** The probe with its host, and the host's polling *)

Definition ENOMEM : Z := 12.

(** What the kernel answers to the two requests [si7006_i2c_probe] makes of
    it: whether [devm_kzalloc] returns memory, and whether
    [devm_hwmon_device_register_with_info] returns an error pointer
    ([IS_ERR], with [PTR_ERR] the negated errno) or a device. *)
Record probe_host : Type := {
  kzalloc_ok : bool;
  hwmon_register_errno : option positive
}.

(** [si7006_i2c_probe] with both requests answered by [h]. *)
Definition si7006_i2c_probe_on (k : kernel) (h : probe_host) : M Z :=
  if negb (kzalloc_ok h) then ret (- ENOMEM) else
  store (fun _ => kzalloc_si7006_private) ;;
  let chip_id := 0 in
  '(_, chip_id) <- si7006_get_device_id k chip_id ;;
  if negb (chip_id =? ID_SI7006) then ret (- ENXIO) else
  match hwmon_register_errno h with
  | Some errno => ret (Z.neg errno)
  | None => ret 0
  end.

(** A host that polls the current value of [q] over and over, waiting
    [gap] ticks before each read. *)
Fixpoint poll (k : kernel) (q : quantity) (gaps : list Z) : M (list Z) :=
  match gaps with
  | [] => ret []
  | gap :: gaps' =>
      idle k gap ;;
      v <- get_current k q ;;
      vs <- poll k q gaps' ;;
      ret (v :: vs)
  end.

(** Bus traffic made of measurement transactions only: a one-byte
    measurement command, followed by a two-byte read unless the command was
    not acknowledged. *)
Inductive measurement_traffic : list i2c_msg -> Prop :=
| traffic_none : measurement_traffic []
| traffic_nak (q : quantity) (rest : list i2c_msg) :
    measurement_traffic rest ->
    measurement_traffic (I2C_WR [command q] :: rest)
| traffic_read (q : quantity) (rest : list i2c_msg) :
    measurement_traffic rest ->
    measurement_traffic (I2C_WR [command q] :: I2C_RD 2 :: rest).

(** The interval of values the conversion of [q] can produce from a 16-bit
    code. *)
Definition in_scale (q : quantity) (v : Z) : Prop :=
  match q with
  | Temperature => -46850 <= v <= 128867
  | Humidity => -6000 <= v <= 118998
  end.

(** A bus on which no write is ever acknowledged. *)
Definition never_acknowledges (w : world) : Prop :=
  forall history bytes,
    reply_ret (chip (client w) history (I2C_WR bytes)) < 0.

(* ------------------------------------------------------------------ *)
(** ** Tactics for running driver code *)

Ltac unfold_master :=
  cbv [get_master si7006_get_master_temperature si7006_get_master_humidity
       i2c_master_send i2c_master_recv i2c_transfer alloca buf_set map seq
       bind ret firstn].

Ltac unfold_device_id :=
  cbv [si7006_get_device_id i2c_master_send i2c_master_recv i2c_transfer
       alloca buf_set map seq bind ret].

Ltac unfold_get :=
  cbv [get_current si7006_get_temperature si7006_get_humidity
       dev_get_drvdata read_jiffies store when bind ret].

Ltac simpl_data :=
  cbn [jiffies client drvdata stack chip wire fst snd
       temperature_valid max_temperature temperature min_temperature
       temperature_updated humidity_valid max_humidity humidity min_humidity
       humidity_updated
       set_temperature_valid set_max_temperature set_temperature
       set_min_temperature set_temperature_updated
       set_humidity_valid set_max_humidity set_humidity
       set_min_humidity set_humidity_updated
       measurement_of value minimum maximum valid last_updated] in *.

(* ------------------------------------------------------------------ *)
(** ** Machine arithmetic *)

Lemma pow2_double (w : Z) : 0 < w -> 2 ^ w = 2 * 2 ^ (w - 1).
Proof.
  intros Hw. replace w with (1 + (w - 1)) at 1 by lia.
  rewrite Z.pow_add_r by lia. reflexivity.
Qed.

Lemma wrap_signed_small (w x : Z) :
  0 < w -> - 2 ^ (w - 1) <= x < 2 ^ (w - 1) -> Cint.wrap_signed w x = x.
Proof.
  intros Hw Hx. unfold Cint.wrap_signed.
  rewrite Z.mod_small; [lia | rewrite (pow2_double w Hw); lia].
Qed.

Lemma int_small (x : Z) : - 2 ^ 31 <= x < 2 ^ 31 -> Cint.int x = x.
Proof. intros H. apply wrap_signed_small; [lia | exact H]. Qed.

Lemma long_long_small (x : Z) : - 2 ^ 63 <= x < 2 ^ 63 -> Cint.long_long x = x.
Proof. intros H. apply wrap_signed_small; [lia | exact H]. Qed.

Lemma long_small (k : kernel) (x : Z) :
  BITS_PER_LONG k = 32 \/ BITS_PER_LONG k = 64 ->
  - 2 ^ 31 <= x < 2 ^ 31 -> long k x = x.
Proof.
  intros Hw Hx. unfold long. apply wrap_signed_small.
  - lia.
  - destruct Hw as [-> | ->]; simpl Z.sub; lia.
Qed.

Lemma byte_range (b : byte) : 0 <= Z.of_N (Byte.to_N b) <= 255.
Proof. pose proof (Byte.to_N_bounded b). lia. Qed.

Lemma char_to_int_range (k : kernel) (b : byte) :
  -128 <= char_to_int k b <= 255.
Proof.
  unfold char_to_int. pose proof (byte_range b).
  destruct (char_is_signed k && (128 <=? Z.of_N (Byte.to_N b))) eqn:E; [|lia].
  apply andb_true_iff in E. destruct E as [_ E]. apply Z.leb_le in E. lia.
Qed.

Lemma char_to_int_unsigned (k : kernel) (b : byte) :
  char_is_signed k = false -> char_to_int k b = Z.of_N (Byte.to_N b).
Proof. intros H. unfold char_to_int. rewrite H. reflexivity. Qed.

(** Whatever the signedness of [char], the sum in [raw_code] stays far
    inside [int]: the two casts are the identity. *)
Lemma raw_code_exact (k : kernel) (buf : list byte) :
  raw_code k buf = buf_at k buf 1 + buf_at k buf 0 * 256.
Proof.
  unfold raw_code, buf_at.
  pose proof (char_to_int_range k (nth 0 buf x00)).
  pose proof (char_to_int_range k (nth 1 buf x00)).
  rewrite (int_small (_ * 256)) by lia.
  apply int_small. lia.
Qed.

Lemma raw_code_range (k : kernel) (buf : list byte) :
  -32896 <= raw_code k buf <= 65535.
Proof.
  rewrite raw_code_exact. unfold buf_at.
  pose proof (char_to_int_range k (nth 0 buf x00)).
  pose proof (char_to_int_range k (nth 1 buf x00)).
  lia.
Qed.

(** The conversions are exact on every code [raw_code] can produce: no
    intermediate leaves [long long], and the result fits a 32-bit [long]. *)
Lemma temperature_of_code_exact (k : kernel) (code : Z) :
  BITS_PER_LONG k = 32 \/ BITS_PER_LONG k = 64 ->
  -32896 <= code <= 65535 ->
  temperature_of_code k code = Z.quot (code * 175720) 65536 - 46850.
Proof.
  intros Hw Hc. unfold temperature_of_code.
  rewrite (long_long_small code) by lia.
  rewrite (long_long_small (code * 175720)) by lia.
  assert (Hq : -90000 <= Z.quot (code * 175720) 65536 <= 175720)
    by (Z.quot_rem_to_equations; lia).
  rewrite long_long_small by lia.
  apply long_small; [exact Hw | lia].
Qed.

Lemma humidity_of_code_exact (k : kernel) (code : Z) :
  BITS_PER_LONG k = 32 \/ BITS_PER_LONG k = 64 ->
  -32896 <= code <= 65535 ->
  humidity_of_code k code = Z.quot (code * 125000) 65536 - 6000.
Proof.
  intros Hw Hc. unfold humidity_of_code.
  rewrite (long_long_small code) by lia.
  rewrite (long_long_small (code * 125000)) by lia.
  assert (Hq : -70000 <= Z.quot (code * 125000) 65536 <= 125000)
    by (Z.quot_rem_to_equations; lia).
  rewrite long_long_small by lia.
  apply long_small; [exact Hw | lia].
Qed.

Lemma rpi_cm3_ok : kernel_ok rpi_cm3.
Proof. unfold kernel_ok; simpl. repeat split; lia. Qed.

(* ------------------------------------------------------------------ *)
(** ** One transport transaction *)

(** A transaction leaves the private data alone, keeps the device, and
    counts as one transaction whether it succeeds or not. *)
Lemma get_master_world (k : kernel) (q : quantity) (v : Z) (w : world) :
  drvdata (snd (get_master k q v w)) = drvdata w /\
  chip (client (snd (get_master k q v w))) = chip (client w) /\
  transactions (snd (get_master k q v w)) = S (transactions w).
Proof.
  destruct w as [j c d s].
  destruct q; unfold_master; cbn [jiffies client drvdata chip wire];
    repeat match goal with
           | |- context [if ?b then _ else _] => destruct b
           end;
    cbn [snd fst drvdata client chip wire];
    (repeat split; try reflexivity);
    unfold transactions; cbn [client wire];
    rewrite ?filter_app, ?length_app; simpl; lia.
Qed.

(** A failed transaction does not touch [*val]. *)
Lemma get_master_failed (k : kernel) (q : quantity) (v : Z) (w : world) :
  transport_status k q w < 0 ->
  fst (get_master k q v w) = (transport_status k q w, v).
Proof.
  unfold transport_status.
  destruct q; unfold_master;
    repeat match goal with
           | |- context [if ?b then _ else _] => destruct b eqn:?
           end; cbn [fst snd]; intros H; try reflexivity; lia.
Qed.

(** A successful transaction stores the converted code of the first two
    bytes of its buffer after the read. *)
Lemma get_master_succeeded (k : kernel) (q : quantity) (v : Z) (w : world) :
  0 <= transport_status k q w ->
  fst (get_master k q v w) = (0, convert k q (raw_code k (received q w))).
Proof.
  unfold transport_status, received.
  destruct q; unfold_master; cbn [command client chip wire];
    repeat match goal with
           | |- context [if ?b then _ else _] => destruct b eqn:?
           end; cbn [fst snd convert]; intros H; try reflexivity;
    match goal with
    | E : (_ <? 0) = true |- _ => apply Z.ltb_lt in E; lia
    end.
Qed.

(* ------------------------------------------------------------------ *)
(** ** The three paths through the sampling functions *)

(** Cached path: the cache is fresh, the stored value is returned and
    nothing at all happens to the world. *)
Lemma get_current_cached (k : kernel) (q : quantity) (w : world) :
  stale k q w = false ->
  get_current k q w = (value (measurement_of q (drvdata w)), w).
Proof.
  unfold stale.
  destruct q; unfold_get; cbn [measurement_of last_updated valid value];
    intros ->; reflexivity.
Qed.

(** Error path: the transaction failed, the function returns the initial
    value of its local variable, and the world is the one the transaction
    left. *)
Lemma get_current_failed (k : kernel) (q : quantity) (w : world) :
  stale k q w = true ->
  transport_status k q w < 0 ->
  get_current k q w = (0, snd (get_master k q 0 w)).
Proof.
  unfold stale. intros Hs Hf.
  pose proof (get_master_failed k q 0 w Hf) as E.
  destruct q; unfold_get;
    cbn [measurement_of last_updated valid value get_master] in *;
    rewrite Hs;
    match goal with
    | |- context [?g k 0 w] => destruct (g k 0 w) as [[r v] w1] eqn:G
    end;
    cbn [fst snd] in *; inversion E; subst;
    apply Z.ltb_lt in Hf; rewrite Hf; reflexivity.
Qed.

(** Refresh path: the transaction succeeded. *)
Lemma get_current_refreshed (k : kernel) (q : quantity) (w : world) :
  stale k q w = true ->
  0 <= transport_status k q w ->
  let m := measurement_of q (drvdata w) in
  let w1 := snd (get_master k q 0 w) in
  let v := convert k q (raw_code k (received q w)) in
  let w' := snd (get_current k q w) in
  fst (get_current k q w) = v /\
  jiffies w' = jiffies w1 /\
  client w' = client w1 /\
  measurement_of q (drvdata w') =
    {| value := v;
       minimum := if valid m then Z.min (minimum m) v else v;
       maximum := if valid m then Z.max (maximum m) v else v;
       valid := true;
       last_updated := jiffies w1 |} /\
  (forall q', q' <> q ->
     measurement_of q' (drvdata w') = measurement_of q' (drvdata w)).
Proof.
  unfold stale. intros Hs Hok.
  pose proof (get_master_succeeded k q 0 w Hok) as E.
  destruct (get_master_world k q 0 w) as [Hd _].
  cbv zeta.
  remember (convert k q (raw_code k (received q w))) as v eqn:Hv. clear Hv.
  destruct q; unfold_get; cbn [get_master] in *; simpl_data;
    rewrite Hs;
    match goal with
    | |- context [?g k 0 w] => destruct (g k 0 w) as [[r v'] w1] eqn:G
    end;
    simpl_data; inversion E; subst r v'; clear E;
    change (0 <? 0) with false; cbv iota; simpl_data;
    rewrite Hd; clear Hs Hok G Hd;
    destruct (drvdata w) as [tv tmax t tmin tu hv hmax h hmin hu];
    simpl_data.
  - destruct tv; cbv beta iota; rewrite ?Z.gtb_ltb; simpl_data;
      repeat match goal with
             | |- context [?a <? ?b] => destruct (Z.ltb_spec a b); simpl_data
             end;
      (repeat split; try reflexivity; try (f_equal; lia);
       intros [] Hq; [congruence | reflexivity]).
  - destruct hv; cbv beta iota; rewrite ?Z.gtb_ltb; simpl_data;
      repeat match goal with
             | |- context [?a <? ?b] => destruct (Z.ltb_spec a b); simpl_data
             end;
      (repeat split; try reflexivity; try (f_equal; lia);
       intros [] Hq; [reflexivity | congruence]).
Qed.

(* ------------------------------------------------------------------ *)
(** ** The staleness test *)

(** [time_after(jiffies, updated + HZ)] holds exactly when more than [HZ]
    ticks have elapsed (and the signed difference has not wrapped). *)
Lemma time_after_due (k : kernel) (now updated : Z) :
  kernel_ok k ->
  time_after k now (unsigned_long k (updated + HZ k)) = true <->
  refresh_due k now updated.
Proof.
  intros (Hw & Hhz & _).
  unfold time_after, refresh_due, elapsed, long, unsigned_long,
    Cint.wrap_signed, Cint.wrap_unsigned.
  rewrite Z.ltb_lt.
  destruct Hw as [-> | ->]; simpl Z.sub;
    [ change (2 ^ 32) with 4294967296; change (2 ^ 31) with 2147483648
    | change (2 ^ 64) with 18446744073709551616;
      change (2 ^ 63) with 9223372036854775808 ];
    change (2 ^ 30) with 1073741824 in Hhz;
    Z.div_mod_to_equations; lia.
Qed.

Lemma stale_iff (k : kernel) (q : quantity) (w : world) :
  kernel_ok k ->
  stale k q w = true <->
  valid (measurement_of q (drvdata w)) = false \/
  refresh_due k (jiffies w) (last_updated (measurement_of q (drvdata w))).
Proof.
  intros Hk. unfold stale. rewrite orb_true_iff, negb_true_iff.
  rewrite (time_after_due k _ _ Hk). tauto.
Qed.

(* ------------------------------------------------------------------ *)
(** ** Measurement conversion *)

(** C2 (amended): for every 16-bit unsigned raw code the temperature
    conversion of [si7006_get_master_temperature] equals
    [(code * 175720) / 65536 - 46850] in exact truncating integer
    arithmetic (no intermediate overflows, and truncation and flooring
    agree); code [0x0000] yields -46850 and code [0xFFFF] yields 128867
    milli-degrees. *)
Theorem temperature_conversion_exact (k : kernel) (code : Z) :
  BITS_PER_LONG k = 32 \/ BITS_PER_LONG k = 64 ->
  0 <= code <= 65535 ->
  temperature_of_code k code = spec_temp_milliC code /\
  temperature_of_code k code = code * 175720 / 65536 - 46850 /\
  temperature_of_code k 0 = -46850 /\
  temperature_of_code k 65535 = 128867.
Proof.
  intros Hk Hc.
  rewrite !temperature_of_code_exact by (assumption || lia).
  unfold spec_temp_milliC.
  repeat split; try reflexivity.
  rewrite Z.quot_div_nonneg by lia. reflexivity.
Qed.

Lemma temperature_conversion_exact_witness :
  temperature_of_code rpi_cm3 26188 = spec_temp_milliC 26188 /\
  temperature_of_code rpi_cm3 26188 = 26188 * 175720 / 65536 - 46850 /\
  temperature_of_code rpi_cm3 0 = -46850 /\
  temperature_of_code rpi_cm3 65535 = 128867.
Proof.
  apply (temperature_conversion_exact rpi_cm3 26188); [left; reflexivity | lia].
Defined.

(** C2 as stated fails at full scale: code [0xFFFF] does not convert to
    129735 milli-degrees. *)
Lemma temperature_full_scale_is_not_129735 :
  temperature_of_code rpi_cm3 65535 <> 129735 /\
  spec_temp_milliC 65535 <> 129735.
Proof. split; vm_compute; discriminate. Qed.

(** C3 (amended): for every 16-bit unsigned raw code the humidity
    conversion of [si7006_get_master_humidity] equals
    [(code * 125000) / 65536 - 6000] in exact truncating integer arithmetic;
    code [0x0000] yields -6000 and code [0xFFFF] yields 118998
    milli-percent. *)
Theorem humidity_conversion_exact (k : kernel) (code : Z) :
  BITS_PER_LONG k = 32 \/ BITS_PER_LONG k = 64 ->
  0 <= code <= 65535 ->
  humidity_of_code k code = spec_humidity_milliPct code /\
  humidity_of_code k code = code * 125000 / 65536 - 6000 /\
  humidity_of_code k 0 = -6000 /\
  humidity_of_code k 65535 = 118998.
Proof.
  intros Hk Hc.
  rewrite !humidity_of_code_exact by (assumption || lia).
  unfold spec_humidity_milliPct.
  repeat split; try reflexivity.
  rewrite Z.quot_div_nonneg by lia. reflexivity.
Qed.

Lemma humidity_conversion_exact_witness :
  humidity_of_code rpi_cm3 26188 = spec_humidity_milliPct 26188 /\
  humidity_of_code rpi_cm3 26188 = 26188 * 125000 / 65536 - 6000 /\
  humidity_of_code rpi_cm3 0 = -6000 /\
  humidity_of_code rpi_cm3 65535 = 118998.
Proof.
  apply (humidity_conversion_exact rpi_cm3 26188); [left; reflexivity | lia].
Defined.

(** C3 as stated fails at full scale: code [0xFFFF] does not convert to
    118968 milli-percent. *)
Lemma humidity_full_scale_is_not_118968 :
  humidity_of_code rpi_cm3 65535 <> 118968 /\
  spec_humidity_milliPct 65535 <> 118968.
Proof. split; vm_compute; discriminate. Qed.

(* ------------------------------------------------------------------ *)
(** ** The raw code *)

(** What a transaction returns, read off the two replies of the bus. *)
Lemma get_master_replies (k : kernel) (q : quantity) (v : Z) (w : world) :
  let sent := chip (client w) (wire (client w)) (I2C_WR [command q]) in
  let got := chip (client w) (wire (client w) ++ [I2C_WR [command q]])
                  (I2C_RD 2) in
  (reply_ret sent < 0 -> fst (get_master k q v w) = (reply_ret sent, v)) /\
  (0 <= reply_ret sent -> reply_ret got < 0 ->
   fst (get_master k q v w) = (reply_ret got, v)) /\
  (0 <= reply_ret sent -> 0 <= reply_ret got ->
   fst (get_master k q v w) = (0, convert k q (raw_code k (received q w)))).
Proof.
  unfold received.
  destruct q; unfold_master; cbn [command client chip wire];
    repeat match goal with
           | |- context [if ?b then _ else _] =>
               let E := fresh "E" in
               destruct b eqn:E;
               [apply Z.ltb_lt in E | apply Z.ltb_ge in E]
           end;
    cbn [fst snd drvdata client chip wire convert] in *;
    repeat split; intros; try reflexivity; lia.
Qed.

(** Only the first two bytes of the buffer enter the code. *)
Lemma raw_code_two (k : kernel) (b0 b1 : byte) (rest : list byte) :
  raw_code k (b0 :: b1 :: rest) = raw_code k [b0; b1].
Proof. reflexivity. Qed.

(** A read that delivers two bytes or more leaves them at the head of the
    buffer; one that delivers nothing leaves the command byte there,
    followed by what the stack held. *)
Lemma received_delivered (q : quantity) (w : world) (b0 b1 : byte)
  (rest : list byte) :
  reply_data (chip (client w) (wire (client w) ++ [I2C_WR [command q]])
                   (I2C_RD 2)) = b0 :: b1 :: rest ->
  exists tail, received q w = b0 :: b1 :: tail.
Proof.
  intros E. unfold received. rewrite E. cbn. eexists. reflexivity.
Qed.

Lemma received_nothing (q : quantity) (w : world) :
  reply_data (chip (client w) (wire (client w) ++ [I2C_WR [command q]])
                   (I2C_RD 2)) = [] ->
  exists tail,
    received q w = command q :: stack w (wire (client w)) 1%nat :: tail.
Proof.
  intros E. unfold received. rewrite E. cbn. eexists. reflexivity.
Qed.

(** On a build where plain [char] is unsigned, a transaction whose write
    and read succeed and whose read delivers the bytes [b0], [b1] converts
    the big-endian code [b0 * 256 + b1], which lies in [0 .. 65535] also
    when a byte has its high bit set. *)
Lemma raw_code_big_endian_unsigned_char (k : kernel) (q : quantity) (v : Z)
  (w : world) (b0 b1 : byte) (rest : list byte) :
  char_is_signed k = false ->
  0 <= reply_ret (chip (client w) (wire (client w)) (I2C_WR [command q])) ->
  0 <= reply_ret (chip (client w) (wire (client w) ++ [I2C_WR [command q]])
                       (I2C_RD 2)) ->
  reply_data (chip (client w) (wire (client w) ++ [I2C_WR [command q]])
                   (I2C_RD 2)) = b0 :: b1 :: rest ->
  let code := Z.of_N (Byte.to_N b0) * 256 + Z.of_N (Byte.to_N b1) in
  0 <= code <= 65535 /\
  fst (get_master k q v w) = (0, convert k q code).
Proof.
  intros Hu Hs Hg Hrx code.
  destruct (received_delivered q w b0 b1 rest Hrx) as [tail Hbuf].
  assert (Hcode : raw_code k (received q w) = code).
  { rewrite Hbuf, raw_code_exact. unfold buf_at. cbn [nth].
    rewrite !char_to_int_unsigned by exact Hu. subst code. lia. }
  split.
  - pose proof (byte_range b0). pose proof (byte_range b1). subst code. lia.
  - destruct (get_master_replies k q v w) as (_ & _ & Hok).
    rewrite (Hok Hs Hg), Hcode. reflexivity.
Qed.

Lemma x86_64_signed_char_ok : kernel_ok x86_64_signed_char.
Proof. unfold kernel_ok; simpl. repeat split; lia. Qed.

(** C10: the code breaks this claim where plain [char] is signed.  The
    buffer is declared [char buf[6]], so on such a build a received byte
    with its high bit set is sign-extended in [buf[1] + buf[0]*256].  On a
    healthy bus delivering the bytes [0x80 0x00] (56.5 percent relative
    humidity) the code formed is -32768, not 32768; the transaction and the
    read method report -68500 milli-percent, where the big-endian unsigned
    code converts to 56500. *)
Theorem raw_code_sign_extends_signed_char :
  let k := x86_64_signed_char in
  let w := boot (si7006_chip x80 x00) 5000 in
  kernel_ok k /\
  (exists tail, received Humidity w = x80 :: x00 :: tail) /\
  raw_code k (received Humidity w) = -32768 /\
  fst (get_master k Humidity 0 w) = (0, -68500) /\
  fst (si7006_read k hwmon_humidity (hwmon_humidity_input k) 0 0 w)
  = (0, -68500) /\
  convert k Humidity (128 * 256 + 0) = 56500.
Proof.
  split; [exact x86_64_signed_char_ok |].
  split; [eexists; reflexivity |].
  repeat split; vm_compute; reflexivity.
Qed.

(* ------------------------------------------------------------------ *)
(** ** Transport failure *)

Lemma stale_when_invalid (k : kernel) (q : quantity) (w : world) :
  valid (measurement_of q (drvdata w)) = false -> stale k q w = true.
Proof. unfold stale. intros ->. apply orb_true_r. Qed.

(** C1 (amended): with a valid sample in the cache, when [get_current]
    finds the cache stale and the transport transaction fails, it returns 0,
    the initial value of its local result (not the cached value), and leaves
    the private data unchanged: value, min, max, valid and last_updated of
    both quantities are as before; the failed attempt counts as one
    transaction. *)
Theorem stale_read_transport_failure (k : kernel) (q : quantity) (w : world) :
  valid (measurement_of q (drvdata w)) = true ->
  stale k q w = true ->
  transport_status k q w < 0 ->
  fst (get_current k q w) = 0 /\
  drvdata (snd (get_current k q w)) = drvdata w /\
  transactions (snd (get_current k q w)) = S (transactions w).
Proof.
  intros _ Hs Hf. rewrite (get_current_failed k q w Hs Hf). cbn [fst snd].
  destruct (get_master_world k q 0 w) as (Hd & _ & Ht). auto.
Qed.

Lemma stale_read_transport_failure_witness :
  fst (get_current rpi_cm3 Temperature sampled_then_glitch) = 0 /\
  drvdata (snd (get_current rpi_cm3 Temperature sampled_then_glitch))
  = drvdata sampled_then_glitch /\
  transactions (snd (get_current rpi_cm3 Temperature sampled_then_glitch))
  = S (transactions sampled_then_glitch).
Proof.
  apply (stale_read_transport_failure rpi_cm3 Temperature sampled_then_glitch).
  - reflexivity.
  - reflexivity.
  - vm_compute. reflexivity.
Defined.

(** C1 as stated fails: on a board sampled at 23367 milli-degrees, a stale
    read whose transaction fails does not return the cached value. *)
Lemma stale_read_failure_drops_cached_value :
  valid (measurement_of Temperature (drvdata sampled_then_glitch)) = true /\
  stale rpi_cm3 Temperature sampled_then_glitch = true /\
  transport_status rpi_cm3 Temperature sampled_then_glitch < 0 /\
  value (measurement_of Temperature (drvdata sampled_then_glitch)) = 23367 /\
  fst (get_current rpi_cm3 Temperature sampled_then_glitch)
  <> value (measurement_of Temperature (drvdata sampled_then_glitch)).
Proof.
  repeat split; try reflexivity. vm_compute. discriminate.
Qed.

(** C9: when no valid sample has been taken and the transport transaction
    fails, [get_current] returns 0, the read method reports success (status
    0) with that 0 as the value, and the private data is unchanged, with
    [valid] still false. *)
Theorem first_read_transport_failure (k : kernel) (q : quantity) (w : world) :
  valid (measurement_of q (drvdata w)) = false ->
  transport_status k q w < 0 ->
  fst (get_current k q w) = 0 /\
  drvdata (snd (get_current k q w)) = drvdata w /\
  valid (measurement_of q (drvdata (snd (get_current k q w)))) = false /\
  (forall channel val, channel < 1 ->
     fst (si7006_read k (sensor_type q) (attr_code k q Input) channel val w)
     = (0, 0)).
Proof.
  intros Hv Hf. pose proof (stale_when_invalid k q w Hv) as Hs.
  pose proof (get_current_failed k q w Hs Hf) as E.
  destruct (get_master_world k q 0 w) as (Hd & _ & _).
  rewrite E. cbn [fst snd]. rewrite Hd.
  repeat split; try assumption.
  intros channel val Hc.
  destruct q; cbn [sensor_type attr_code si7006_read get_current] in *;
    unfold si7006_read_temperature, si7006_read_humidity, SI7006_NUM_CH_TEMP;
    rewrite Z.eqb_refl; apply Z.ltb_lt in Hc; rewrite Hc;
    unfold bind, ret; rewrite E; reflexivity.
Qed.

Lemma first_read_transport_failure_witness :
  fst (get_current rpi_cm3 Humidity (boot dead_bus 5000)) = 0 /\
  drvdata (snd (get_current rpi_cm3 Humidity (boot dead_bus 5000)))
  = drvdata (boot dead_bus 5000) /\
  valid (measurement_of Humidity
           (drvdata (snd (get_current rpi_cm3 Humidity (boot dead_bus 5000)))))
  = false /\
  (forall channel val, channel < 1 ->
     fst (si7006_read rpi_cm3 (sensor_type Humidity)
            (attr_code rpi_cm3 Humidity Input) channel val
            (boot dead_bus 5000))
     = (0, 0)).
Proof.
  apply (first_read_transport_failure rpi_cm3 Humidity (boot dead_bus 5000)).
  - reflexivity.
  - vm_compute. reflexivity.
Defined.

(* ------------------------------------------------------------------ *)
(** ** When the bus is used *)

Lemma get_current_transactions (k : kernel) (q : quantity) (w : world) :
  transactions (snd (get_current k q w))
  = if stale k q w then S (transactions w) else transactions w.
Proof.
  destruct (stale k q w) eqn:Hs.
  - destruct (get_master_world k q 0 w) as (_ & _ & Ht).
    destruct (Z.ltb_spec (transport_status k q w) 0) as [Hf | Hok].
    + rewrite (get_current_failed k q w Hs Hf). exact Ht.
    + destruct (get_current_refreshed k q w Hs Hok) as (_ & _ & Hc & _).
      unfold transactions in *. rewrite Hc. exact Ht.
  - rewrite (get_current_cached k q w Hs). reflexivity.
Qed.

(** C4 (amended): [get_current] issues a transport transaction exactly when
    [valid] is false or [time_after(now, last_updated + HZ)] holds, that is
    when strictly more than [HZ] ticks have elapsed since the last sample
    (and at most [HZ + 2^(BITS_PER_LONG-1)], where the tick difference
    wraps); when neither holds, also when exactly [HZ] ticks have elapsed, it
    returns the cached value without a transaction and without modifying
    anything. *)
Theorem transport_exactly_when_due (k : kernel) (q : quantity) (w : world) :
  kernel_ok k ->
  let m := measurement_of q (drvdata w) in
  let due := valid m = false \/ refresh_due k (jiffies w) (last_updated m) in
  (due -> transactions (snd (get_current k q w)) = S (transactions w)) /\
  (~ due -> get_current k q w = (value m, w)) /\
  (transactions (snd (get_current k q w)) <> transactions w <-> due).
Proof.
  intros Hk m due.
  pose proof (stale_iff k q w Hk) as Hiff. fold m in Hiff. fold due in Hiff.
  pose proof (get_current_transactions k q w) as Ht.
  destruct (stale k q w) eqn:Hs.
  - assert (Hd : due) by (apply Hiff; reflexivity).
    repeat split; intros; try tauto; lia.
  - assert (Hd : ~ due) by (intros Hd; apply Hiff in Hd; discriminate).
    repeat split; intros; try tauto.
    apply (get_current_cached k q w Hs).
Qed.

Lemma transport_exactly_when_due_witness :
  let w := sampled_one_second_ago in
  let m := measurement_of Temperature (drvdata w) in
  let due :=
    valid m = false \/ refresh_due rpi_cm3 (jiffies w) (last_updated m) in
  (due ->
   transactions (snd (get_current rpi_cm3 Temperature w))
   = S (transactions w)) /\
  (~ due -> get_current rpi_cm3 Temperature w = (value m, w)) /\
  (transactions (snd (get_current rpi_cm3 Temperature w)) <> transactions w
   <-> due).
Proof.
  apply (transport_exactly_when_due rpi_cm3 Temperature
           sampled_one_second_ago).
  exact rpi_cm3_ok.
Defined.

(** C4 as stated fails: exactly [HZ] ticks after a sample the specification
    calls the cache stale (whether the refresh interval is read as [HZ]
    ticks or as a single tick), but the driver answers from the cache and
    puts nothing on the bus. *)
Lemma no_transport_at_exactly_one_interval :
  let w := sampled_one_second_ago in
  let m := measurement_of Temperature (drvdata w) in
  jiffies w - last_updated m = HZ rpi_cm3 /\
  spec_stale m (jiffies w) (HZ rpi_cm3) = true /\
  spec_stale m (jiffies w) 1 = true /\
  get_current rpi_cm3 Temperature w = (value m, w) /\
  transactions (snd (get_current rpi_cm3 Temperature w)) = transactions w.
Proof. repeat split; reflexivity. Qed.

(* ------------------------------------------------------------------ *)
(** ** Two reads in one window *)

Lemma fresh_after_refresh (k : kernel) (q : quantity) (w : world) (ticks : Z) :
  kernel_ok k ->
  0 <= ticks <= HZ k ->
  valid (measurement_of q (drvdata w)) = true ->
  last_updated (measurement_of q (drvdata w)) = jiffies w ->
  stale k q (snd (idle k ticks w)) = false.
Proof.
  intros (Hw & Hhz & _) Ht Hv Hu.
  unfold stale, idle. cbn [snd drvdata jiffies]. rewrite Hv, Hu.
  rewrite orb_false_r.
  unfold time_after, long, unsigned_long, Cint.wrap_signed,
    Cint.wrap_unsigned.
  apply Z.ltb_ge.
  destruct Hw as [-> | ->]; simpl Z.sub;
    [ change (2 ^ 32) with 4294967296; change (2 ^ 31) with 2147483648
    | change (2 ^ 64) with 18446744073709551616;
      change (2 ^ 63) with 9223372036854775808 ];
    change (2 ^ 30) with 1073741824 in Hhz;
    Z.div_mod_to_equations; lia.
Qed.

(** C8 (amended): for every state with a valid sample, when the first of
    two [get_current] calls finds the cache stale and its transport
    transaction succeeds, a second call made at most [HZ] ticks later takes
    the cached path: both calls return the same value and the pair makes
    exactly one transport transaction. *)
Theorem two_reads_one_transaction (k : kernel) (q : quantity) (ticks : Z)
  (w : world) :
  kernel_ok k ->
  valid (measurement_of q (drvdata w)) = true ->
  stale k q w = true ->
  0 <= transport_status k q w ->
  0 <= ticks <= HZ k ->
  idempotent_pair k q ticks w /\
  stale k q (snd (idle k ticks (snd (get_current k q w)))) = false.
Proof.
  intros Hk _ Hs Hok Ht.
  destruct (get_current_refreshed k q w Hs Hok) as (Hv & Hj & _ & Hm & _).
  pose proof (get_current_transactions k q w) as Hn. rewrite Hs in Hn.
  assert (Hfresh : stale k q (snd (idle k ticks (snd (get_current k q w))))
                   = false).
  { apply fresh_after_refresh; try assumption; rewrite Hm; cbn.
    - reflexivity.
    - symmetry. exact Hj. }
  split; [| exact Hfresh].
  unfold idempotent_pair, get_current_twice, bind, ret.
  destruct (get_current k q w) as [v1 w1] eqn:E1. cbn [fst snd] in *.
  destruct (idle k ticks w1) as [[] w2] eqn:E2. cbn [snd] in Hfresh.
  rewrite (get_current_cached k q w2 Hfresh).
  assert (Hd : drvdata w2 = drvdata w1 /\ client w2 = client w1).
  { unfold idle in E2. inversion E2. split; reflexivity. }
  destruct Hd as [Hd Hc]. rewrite Hd, Hm. cbn [value].
  split; [exact Hv |].
  unfold transactions in *. rewrite Hc. exact Hn.
Qed.

Lemma two_reads_one_transaction_witness :
  idempotent_pair rpi_cm3 Temperature 100 sampled_healthy /\
  stale rpi_cm3 Temperature
    (snd (idle rpi_cm3 100
            (snd (get_current rpi_cm3 Temperature sampled_healthy))))
  = false.
Proof.
  apply (two_reads_one_transaction rpi_cm3 Temperature 100 sampled_healthy).
  - exact rpi_cm3_ok.
  - reflexivity.
  - reflexivity.
  - vm_compute. discriminate.
  - vm_compute. split; discriminate.
Defined.

(** C8 as stated fails.  With a valid sample in the cache, two calls in the
    same tick make two transactions and return different values when the
    first transaction fails; and they make no transaction at all when the
    cache is still fresh at the first call. *)
Lemma two_reads_not_always_one_transaction :
  valid (measurement_of Temperature (drvdata sampled_then_glitch)) = true /\
  get_current_twice rpi_cm3 Temperature 0 sampled_then_glitch
  = (0, 23367,
     snd (get_current_twice rpi_cm3 Temperature 0 sampled_then_glitch)) /\
  transactions
    (snd (get_current_twice rpi_cm3 Temperature 0 sampled_then_glitch))
  = S (S (transactions sampled_then_glitch)) /\
  ~ idempotent_pair rpi_cm3 Temperature 0 sampled_then_glitch /\
  valid (measurement_of Temperature (drvdata sampled_one_second_ago)) = true /\
  transactions
    (snd (get_current_twice rpi_cm3 Temperature 0 sampled_one_second_ago))
  = transactions sampled_one_second_ago /\
  ~ idempotent_pair rpi_cm3 Temperature 0 sampled_one_second_ago.
Proof.
  repeat split; try reflexivity.
  - vm_compute. intros [H _]. discriminate.
  - vm_compute. intros [_ H]. discriminate.
Qed.

(* ------------------------------------------------------------------ *)
(** ** What a call can do to the private data *)

(** Every call of [get_current] either leaves the private data as it was,
    or it is a successful refresh. *)
Lemma get_current_drvdata (k : kernel) (q : quantity) (w : world) :
  drvdata (snd (get_current k q w)) = drvdata w \/
  (stale k q w = true /\ 0 <= transport_status k q w).
Proof.
  destruct (stale k q w) eqn:Hs.
  - destruct (Z.ltb_spec (transport_status k q w) 0) as [Hf | Hok].
    + left. rewrite (get_current_failed k q w Hs Hf).
      apply (get_master_world k q 0 w).
    + right. split; [reflexivity | exact Hok].
  - left. rewrite (get_current_cached k q w Hs). reflexivity.
Qed.

(** The read method changes the world only through [get_current]. *)
Lemma read_world (k : kernel) (type : hwmon_sensor_types)
  (attr channel val : Z) (w : world) :
  snd (si7006_read k type attr channel val w) = w \/
  exists q, snd (si7006_read k type attr channel val w)
            = snd (get_current k q w).
Proof.
  destruct type; cbn [si7006_read]; try (left; reflexivity).
  - unfold si7006_read_temperature.
    repeat match goal with
           | |- context [if ?b then _ else _] => destruct b
           end; try (left; reflexivity).
    right. exists Temperature. cbn [get_current]. unfold bind, ret.
    destruct (si7006_get_temperature k w). reflexivity.
  - unfold si7006_read_humidity.
    repeat match goal with
           | |- context [if ?b then _ else _] => destruct b
           end; try (left; reflexivity).
    right. exists Humidity. cbn [get_current]. unfold bind, ret.
    destruct (si7006_get_humidity k w). reflexivity.
Qed.

Lemma probe_drvdata (k : kernel) (w : world) :
  drvdata (snd (si7006_i2c_probe k w)) = kzalloc_si7006_private.
Proof.
  unfold si7006_i2c_probe, si7006_get_device_id, i2c_master_send,
    i2c_master_recv, i2c_transfer, alloca, store, bind, ret.
  repeat match goal with
         | |- context [if ?b then _ else _] => destruct b
         end; reflexivity.
Qed.

Lemma quantity_eq_dec (q q' : quantity) : {q = q'} + {q <> q'}.
Proof. decide equality. Qed.

Lemma get_current_extrema (k : kernel) (q : quantity) (w : world) :
  (forall q', extrema_ok (measurement_of q' (drvdata w))) ->
  forall q', extrema_ok (measurement_of q' (drvdata (snd (get_current k q w)))).
Proof.
  intros Hinv q'.
  destruct (get_current_drvdata k q w) as [E | [Hs Hok]].
  - rewrite E. apply Hinv.
  - destruct (get_current_refreshed k q w Hs Hok) as (_ & _ & _ & Hm & Ho).
    destruct (quantity_eq_dec q' q) as [-> | Hne].
    + rewrite Hm. unfold extrema_ok. cbn [valid minimum maximum value].
      intros _. destruct (valid (measurement_of q (drvdata w))); lia.
    + rewrite (Ho q' Hne). apply Hinv.
Qed.

Lemma get_current_keeps_valid (k : kernel) (q q' : quantity) (w : world) :
  valid (measurement_of q' (drvdata w)) = true ->
  valid (measurement_of q' (drvdata (snd (get_current k q w)))) = true.
Proof.
  intros Hv.
  destruct (get_current_drvdata k q w) as [E | [Hs Hok]].
  - rewrite E. exact Hv.
  - destruct (get_current_refreshed k q w Hs Hok) as (_ & _ & _ & Hm & Ho).
    destruct (quantity_eq_dec q' q) as [-> | Hne].
    + rewrite Hm. reflexivity.
    + rewrite (Ho q' Hne). exact Hv.
Qed.

Lemma step_extrema (k : kernel) (w w' : world) :
  step k w w' ->
  (forall q, extrema_ok (measurement_of q (drvdata w))) ->
  forall q, extrema_ok (measurement_of q (drvdata w')).
Proof.
  intros Hstep Hinv. destruct Hstep as [type attr channel val w | ticks w].
  - destruct (read_world k type attr channel val w) as [-> | [q' ->]].
    + exact Hinv.
    + apply get_current_extrema. exact Hinv.
  - exact Hinv.
Qed.

Lemma step_keeps_valid (k : kernel) (q : quantity) (w w' : world) :
  step k w w' ->
  valid (measurement_of q (drvdata w)) = true ->
  valid (measurement_of q (drvdata w')) = true.
Proof.
  intros Hstep Hv. destruct Hstep as [type attr channel val w | ticks w].
  - destruct (read_world k type attr channel val w) as [-> | [q' ->]].
    + exact Hv.
    + apply get_current_keeps_valid. exact Hv.
  - exact Hv.
Qed.

Lemma reachable_extrema (k : kernel) (w : world) :
  reachable k w -> forall q, extrema_ok (measurement_of q (drvdata w)).
Proof.
  induction 1 as [w Hp | w w' Hr IH Hstep].
  - intros q. rewrite probe_drvdata. destruct q; intros Hv; discriminate.
  - apply (step_extrema k w w' Hstep IH).
Qed.

(* ------------------------------------------------------------------ *)
(** ** Running extrema *)

(** C6: in every reachable state, for either quantity, [valid == true]
    implies [min <= value <= max]; and this still holds after any
    [get_current] call, whichever path it takes (refresh, cached, or
    transport error). *)
Theorem extrema_invariant (k : kernel) (w : world) :
  reachable k w ->
  forall q,
    extrema_ok (measurement_of q (drvdata w)) /\
    forall q',
      extrema_ok (measurement_of q (drvdata (snd (get_current k q' w)))).
Proof.
  intros Hr q. pose proof (reachable_extrema k w Hr) as Hinv.
  split; [apply Hinv |].
  intros q'. apply get_current_extrema. exact Hinv.
Qed.

Lemma extrema_invariant_witness :
  let w := snd (si7006_read rpi_cm3 hwmon_temp 1 0 0
                  (snd (si7006_i2c_probe rpi_cm3
                          (boot (si7006_chip x66 x4c) 5000)))) in
  valid (measurement_of Temperature (drvdata w)) = true /\
  forall q,
    extrema_ok (measurement_of q (drvdata w)) /\
    forall q',
      extrema_ok
        (measurement_of q (drvdata (snd (get_current rpi_cm3 q' w)))).
Proof.
  split; [reflexivity |].
  apply (extrema_invariant rpi_cm3).
  apply (reach_step rpi_cm3
           (snd (si7006_i2c_probe rpi_cm3 (boot (si7006_chip x66 x4c) 5000)))).
  - apply reach_probe. reflexivity.
  - apply step_read.
Defined.

(* ------------------------------------------------------------------ *)
(** ** The validity flag *)

Lemma steps_keep_valid (k : kernel) (q : quantity) (w w' : world) :
  steps k w w' ->
  valid (measurement_of q (drvdata w)) = true ->
  valid (measurement_of q (drvdata w')) = true.
Proof.
  induction 1 as [w | w1 w2 w3 H12 IH H23]; intros Hv.
  - exact Hv.
  - apply (step_keeps_valid k q w2 w3 H23). apply IH. exact Hv.
Qed.

Lemma first_sample (k : kernel) (q : quantity) (w : world) :
  valid (measurement_of q (drvdata w)) = false ->
  0 <= transport_status k q w ->
  measurement_of q (drvdata (snd (get_current k q w)))
  = {| value := fst (get_current k q w);
       minimum := fst (get_current k q w);
       maximum := fst (get_current k q w);
       valid := true;
       last_updated := jiffies (snd (get_current k q w)) |}.
Proof.
  intros Hv Hok. pose proof (stale_when_invalid k q w Hv) as Hs.
  destruct (get_current_refreshed k q w Hs Hok) as (Hr & Hj & _ & Hm & _).
  rewrite Hm, Hv, Hr, Hj. reflexivity.
Qed.

(** C7: the probe leaves [valid] false for both quantities; from a state
    with [valid] false, a [get_current] whose transport transaction succeeds
    sets [min == max == value] (the value it returns) and [valid] to true;
    no step of the driver takes [valid] from false to true in any other
    way, and once true it stays true through every later operation. *)
Theorem valid_set_once (k : kernel) :
  (forall w q,
     valid (measurement_of q (drvdata (snd (si7006_i2c_probe k w)))) = false)
  /\
  (forall q w,
     valid (measurement_of q (drvdata w)) = false ->
     0 <= transport_status k q w ->
     let m' := measurement_of q (drvdata (snd (get_current k q w))) in
     valid m' = true /\
     value m' = fst (get_current k q w) /\
     minimum m' = value m' /\ maximum m' = value m')
  /\
  (forall q w w',
     step k w w' ->
     valid (measurement_of q (drvdata w)) = false ->
     valid (measurement_of q (drvdata w')) = true ->
     w' = snd (get_current k q w) /\ 0 <= transport_status k q w)
  /\
  (forall q w w',
     steps k w w' ->
     valid (measurement_of q (drvdata w)) = true ->
     valid (measurement_of q (drvdata w')) = true).
Proof.
  repeat apply conj.
  - intros w q. rewrite probe_drvdata. destruct q; reflexivity.
  - intros q w Hv Hok m'. subst m'. rewrite (first_sample k q w Hv Hok).
    cbn [valid value minimum maximum]. auto.
  - intros q w w' Hstep Hv Hv'.
    destruct Hstep as [type attr channel val w | ticks w].
    + destruct (read_world k type attr channel val w) as [E | [q' E]];
        rewrite E in *; [congruence |].
      destruct (get_current_drvdata k q' w) as [Ed | [Hs Hok]];
        [rewrite Ed in Hv'; congruence |].
      destruct (quantity_eq_dec q q') as [-> | Hne]; [auto |].
      destruct (get_current_refreshed k q' w Hs Hok) as (_ & _ & _ & _ & Ho).
      rewrite (Ho q Hne) in Hv'. congruence.
    + cbn [idle snd drvdata] in Hv'. congruence.
  - intros q w w'. apply steps_keep_valid.
Qed.

Lemma valid_set_once_witness :
  let w := snd (si7006_i2c_probe rpi_cm3 (boot (si7006_chip x66 x4c) 5000)) in
  let m' := measurement_of Temperature
              (drvdata (snd (get_current rpi_cm3 Temperature w))) in
  valid (measurement_of Temperature (drvdata w)) = false /\
  valid m' = true /\
  value m' = fst (get_current rpi_cm3 Temperature w) /\
  minimum m' = value m' /\ maximum m' = value m'.
Proof.
  split.
  - apply (valid_set_once rpi_cm3).
  - apply (valid_set_once rpi_cm3).
    + reflexivity.
    + vm_compute. discriminate.
Defined.

(* ------------------------------------------------------------------ *)
(** ** Read dispatch *)

Lemma attribute_kind_code (k : kernel) (q : quantity) (a : attribute) :
  kernel_ok k -> attribute_kind k q (attr_code k q a) = Some a.
Proof.
  intros (_ & _ & T1 & T2 & T3 & H1 & H2 & H3).
  unfold attribute_kind.
  destruct q, a; cbn [find attr_code]; rewrite ?Z.eqb_refl; try reflexivity;
    repeat match goal with
           | |- context [?x =? ?y] =>
               destruct (Z.eqb_spec x y); [congruence |]
           end; reflexivity.
Qed.

Lemma attribute_kind_some (k : kernel) (q : quantity) (attr : Z)
  (a : attribute) :
  attribute_kind k q attr = Some a -> attr = attr_code k q a.
Proof.
  unfold attribute_kind. intros H. apply find_some in H.
  destruct H as [_ H]. apply Z.eqb_eq in H. exact H.
Qed.

Lemma quantity_kind_some (type : hwmon_sensor_types) (q : quantity) :
  quantity_kind type = Some q -> type = sensor_type q.
Proof. destruct type, q; cbn; congruence. Qed.

Lemma read_refines_spec (k : kernel) (type : hwmon_sensor_types)
  (attr channel val : Z) (w : world) :
  kernel_ok k ->
  si7006_read k type attr channel val w = spec_read k type attr channel val w.
Proof.
  intros (_ & _ & T1 & T2 & T3 & H1 & H2 & H3).
  unfold spec_read, attribute_kind, SI7006_NUM_CH_TEMP.
  destruct type; cbn [si7006_read quantity_kind]; try reflexivity.
  - unfold si7006_read_temperature, SI7006_NUM_CH_TEMP.
    cbn [find attr_code accessor get_current get_max get_min].
    destruct (channel <? 1);
      repeat match goal with
             | |- context [?x =? ?y] => destruct (x =? y)
             end; reflexivity.
  - unfold si7006_read_humidity, SI7006_NUM_CH_TEMP.
    cbn [find attr_code accessor get_current get_max get_min].
    destruct (channel <? 1);
      repeat match goal with
             | |- context [?x =? ?y] => destruct (x =? y)
             end; reflexivity.
Qed.

(** C5: the read method agrees with the facade of the specification:
    it returns a value (status 0) exactly when the type is temperature or
    humidity, the channel is below 1, and the attribute is input, max or
    min; otherwise it returns [-EOPNOTSUPP] and touches nothing; and on
    success the value and the effect are those of [get_current], [get_max]
    or [get_min] of the quantity. *)
Theorem read_dispatch (k : kernel) (type : hwmon_sensor_types)
  (attr channel val : Z) (w : world) :
  kernel_ok k ->
  let supported :=
    exists q a,
      type = sensor_type q /\ channel < 1 /\ attr = attr_code k q a in
  si7006_read k type attr channel val w = spec_read k type attr channel val w
  /\
  (fst (fst (si7006_read k type attr channel val w)) = 0 <-> supported) /\
  (~ supported ->
   si7006_read k type attr channel val w = (- EOPNOTSUPP, val, w)) /\
  (forall q a,
     type = sensor_type q -> channel < 1 -> attr = attr_code k q a ->
     si7006_read k type attr channel val w
     = (0, fst (accessor k q a w), snd (accessor k q a w))).
Proof.
  intros Hk supported.
  pose proof (read_refines_spec k type attr channel val w Hk) as Href.
  assert (Hdispatch :
    forall q a,
      type = sensor_type q -> channel < 1 -> attr = attr_code k q a ->
      si7006_read k type attr channel val w
      = (0, fst (accessor k q a w), snd (accessor k q a w))).
  { intros q a -> Hc ->. rewrite Href. unfold spec_read.
    replace (quantity_kind (sensor_type q)) with (Some q)
      by (destruct q; reflexivity).
    apply Z.ltb_lt in Hc. rewrite Hc.
    rewrite (attribute_kind_code k q a Hk). unfold bind, ret.
    destruct (accessor k q a w). reflexivity. }
  assert (Hunsupported :
    ~ supported ->
    si7006_read k type attr channel val w = (- EOPNOTSUPP, val, w)).
  { intros Hn. rewrite Href. unfold spec_read.
    destruct (quantity_kind type) as [q |] eqn:Eq; [| reflexivity].
    pose proof (quantity_kind_some type q Eq) as Et.
    destruct (Z.ltb_spec channel 1) as [Hc | Hc]; [| reflexivity].
    destruct (attribute_kind k q attr) as [a |] eqn:Ea; [| reflexivity].
    exfalso. apply Hn. exists q, a.
    auto using attribute_kind_some. }
  split; [exact Href |].
  split; [| split; assumption].
  split.
  - intros H0.
    destruct (quantity_kind type) as [q |] eqn:Eq.
    + pose proof (quantity_kind_some type q Eq) as Et.
      destruct (Z.ltb_spec channel 1) as [Hc | Hc].
      * destruct (attribute_kind k q attr) as [a |] eqn:Ea.
        -- exists q, a. auto using attribute_kind_some.
        -- rewrite Href in H0. unfold spec_read in H0.
           rewrite Eq, Ea in H0. apply Z.ltb_lt in Hc. rewrite Hc in H0.
           discriminate.
      * rewrite Href in H0. unfold spec_read in H0. rewrite Eq in H0.
        apply Z.ltb_ge in Hc. rewrite Hc in H0. discriminate.
    + rewrite Href in H0. unfold spec_read in H0. rewrite Eq in H0.
      discriminate.
  - intros (q & a & Et & Hc & Ea).
    rewrite (Hdispatch q a Et Hc Ea). reflexivity.
Qed.

Lemma read_dispatch_witness :
  let w := sampled_healthy in
  let supported :=
    exists q a,
      hwmon_humidity = sensor_type q /\ 0 < 1 /\ 5 = attr_code rpi_cm3 q a in
  si7006_read rpi_cm3 hwmon_humidity 5 0 0 w
  = spec_read rpi_cm3 hwmon_humidity 5 0 0 w /\
  (fst (fst (si7006_read rpi_cm3 hwmon_humidity 5 0 0 w)) = 0 <-> supported)
  /\
  (~ supported ->
   si7006_read rpi_cm3 hwmon_humidity 5 0 0 w = (- EOPNOTSUPP, 0, w)) /\
  (forall q a,
     hwmon_humidity = sensor_type q -> 0 < 1 -> 5 = attr_code rpi_cm3 q a ->
     si7006_read rpi_cm3 hwmon_humidity 5 0 0 w
     = (0, fst (accessor rpi_cm3 q a w), snd (accessor rpi_cm3 q a w))).
Proof.
  apply (read_dispatch rpi_cm3 hwmon_humidity 5 0 0 sampled_healthy).
  exact rpi_cm3_ok.
Defined.

(** The dispatch examples of the specification, on a sampled board: channel
    0 of the temperature input succeeds, channel 1 is unsupported, and the
    humidity maximum is the stored one, read without touching the bus. *)
Lemma read_dispatch_examples :
  let w := sampled_healthy in
  fst (fst (si7006_read rpi_cm3 hwmon_temp 1 0 0 w)) = 0 /\
  si7006_read rpi_cm3 hwmon_temp 1 1 0 w = (- EOPNOTSUPP, 0, w) /\
  si7006_read rpi_cm3 hwmon_humidity 5 0 0 w
  = (0, max_humidity (drvdata w), w).
Proof. repeat split; reflexivity. Qed.

(* ------------------------------------------------------------------ *)
(** ** Further properties: the bus protocol of one transaction *)

Lemma get_master_wire_cases (k : kernel) (q : quantity) (v : Z) (w : world) :
  let w' := snd (get_master k q v w) in
  let sent := chip (client w) (wire (client w)) (I2C_WR [command q]) in
  (reply_ret sent < 0 ->
   wire (client w') = wire (client w) ++ [I2C_WR [command q]]) /\
  (0 <= reply_ret sent ->
   wire (client w') = wire (client w) ++ [I2C_WR [command q]; I2C_RD 2]).
Proof.
  destruct q; unfold_master; cbn [command client chip wire];
    repeat match goal with
           | |- context [if ?b then _ else _] =>
               let E := fresh "E" in
               destruct b eqn:E;
               [apply Z.ltb_lt in E | apply Z.ltb_ge in E]
           end;
    cbn [fst snd drvdata client chip wire] in *;
    rewrite <- ?app_assoc; cbn [app];
    repeat split; intros; try reflexivity; lia.
Qed.

(** X1: a measurement transaction writes exactly the one-byte command of
    its quantity; if that write fails its status is returned, [*val] is
    untouched and no read is attempted; otherwise exactly one two-byte read
    follows, and a failed read is returned with [*val] untouched as well.
    After a read that did not fail, the value stored is converted from the
    first two bytes of the function's own buffer: the two bytes delivered
    if the read delivered them, and the command byte followed by whatever
    the stack held if it delivered nothing.  The private data and the
    device are never touched. *)
Theorem transaction_on_the_wire (k : kernel) (q : quantity) (v : Z)
  (w : world) :
  let w' := snd (get_master k q v w) in
  let sent := chip (client w) (wire (client w)) (I2C_WR [command q]) in
  let got := chip (client w) (wire (client w) ++ [I2C_WR [command q]])
                  (I2C_RD 2) in
  drvdata w' = drvdata w /\
  chip (client w') = chip (client w) /\
  (reply_ret sent < 0 ->
   wire (client w') = wire (client w) ++ [I2C_WR [command q]] /\
   fst (get_master k q v w) = (reply_ret sent, v)) /\
  (0 <= reply_ret sent ->
   wire (client w') = wire (client w) ++ [I2C_WR [command q]; I2C_RD 2] /\
   (reply_ret got < 0 -> fst (get_master k q v w) = (reply_ret got, v)) /\
   (0 <= reply_ret got ->
    fst (get_master k q v w) = (0, convert k q (raw_code k (received q w)))
    /\
    (forall b0 b1 rest,
       reply_data got = b0 :: b1 :: rest ->
       raw_code k (received q w) = raw_code k [b0; b1]) /\
    (reply_data got = [] ->
     raw_code k (received q w)
     = raw_code k [command q; stack w (wire (client w)) 1%nat]))).
Proof.
  intros w' sent got. subst w'.
  destruct (get_master_world k q v w) as (Hd & Hc & _).
  destruct (get_master_wire_cases k q v w) as (Hw1 & Hw2).
  destruct (get_master_replies k q v w) as (Hr1 & Hr2 & Hr3).
  fold sent in Hw1, Hw2, Hr1, Hr2, Hr3. fold got in Hr2, Hr3.
  split; [exact Hd |]. split; [exact Hc |].
  split; [intros Hs; split; auto |].
  intros Hs. split; [auto |]. split; [auto |].
  intros Hg. split; [auto |]. split.
  - intros b0 b1 rest E.
    destruct (received_delivered q w b0 b1 rest E) as [tail ->].
    apply raw_code_two.
  - intros E. destruct (received_nothing q w E) as [tail ->].
    apply raw_code_two.
Qed.

Lemma transaction_on_the_wire_witness :
  (let w := boot dead_bus 5000 in
   wire (client (snd (get_master rpi_cm3 Humidity 77 w)))
   = wire (client w) ++ [I2C_WR [command Humidity]] /\
   fst (get_master rpi_cm3 Humidity 77 w) = (- EIO, 77)) /\
  (let w := boot mute_chip 5000 in
   fst (get_master rpi_cm3 Humidity 77 w)
   = (0, convert rpi_cm3 Humidity (raw_code rpi_cm3 (received Humidity w)))
   /\
   (forall b0 b1 rest,
      reply_data
        (chip (client w) (wire (client w) ++ [I2C_WR [command Humidity]])
              (I2C_RD 2)) = b0 :: b1 :: rest ->
      raw_code rpi_cm3 (received Humidity w) = raw_code rpi_cm3 [b0; b1]) /\
   (reply_data
      (chip (client w) (wire (client w) ++ [I2C_WR [command Humidity]])
            (I2C_RD 2)) = [] ->
    raw_code rpi_cm3 (received Humidity w)
    = raw_code rpi_cm3 [command Humidity; stack w (wire (client w)) 1%nat])).
Proof.
  split.
  - apply (transaction_on_the_wire rpi_cm3 Humidity 77 (boot dead_bus 5000)).
    vm_compute. reflexivity.
  - apply (transaction_on_the_wire rpi_cm3 Humidity 77 (boot mute_chip 5000));
      vm_compute; discriminate.
Defined.

(** On a bus whose read reports success without delivering anything, the
    humidity is computed from the command byte [0xE5] and the stack byte
    behind it. *)
Lemma mute_chip_reads_command_byte :
  let w := boot mute_chip 5000 in
  raw_code rpi_cm3 (received Humidity w) = 229 * 256 + 170 /\
  fst (get_master rpi_cm3 Humidity 77 w) = (0, 106140).
Proof. split; vm_compute; reflexivity. Qed.

(* ------------------------------------------------------------------ *)
(** ** Further properties: the conversions *)

Lemma convert_exact (k : kernel) (q : quantity) (code : Z) :
  BITS_PER_LONG k = 32 \/ BITS_PER_LONG k = 64 ->
  -32896 <= code <= 65535 ->
  convert k q code
  = match q with
    | Temperature => Z.quot (code * 175720) 65536 - 46850
    | Humidity => Z.quot (code * 125000) 65536 - 6000
    end.
Proof.
  intros Hw Hc.
  destruct q; [apply temperature_of_code_exact | apply humidity_of_code_exact];
    assumption.
Qed.

(** X2: on 16-bit codes both conversions are monotone (a higher code never
    reads as a lower value), stay inside the full-scale interval of the
    quantity (-46850 .. 128867 milli-degrees, -6000 .. 118998 milli-percent),
    and move by at most 3 units per code step. *)
Theorem conversion_monotone_bounded (k : kernel) (q : quantity) (c1 c2 : Z) :
  BITS_PER_LONG k = 32 \/ BITS_PER_LONG k = 64 ->
  0 <= c1 <= c2 ->
  c2 <= 65535 ->
  convert k q c1 <= convert k q c2 /\
  in_scale q (convert k q c1) /\
  in_scale q (convert k q c2) /\
  (c2 = c1 + 1 -> convert k q c2 <= convert k q c1 + 3).
Proof.
  intros Hw H1 H2.
  rewrite !convert_exact by (assumption || lia).
  destruct q; unfold in_scale;
    rewrite !Z.quot_div_nonneg by lia;
    repeat split; intros; Z.div_mod_to_equations; lia.
Qed.

Lemma conversion_monotone_bounded_witness :
  convert rpi_cm3 Humidity 26188 <= convert rpi_cm3 Humidity 26189 /\
  in_scale Humidity (convert rpi_cm3 Humidity 26188) /\
  in_scale Humidity (convert rpi_cm3 Humidity 26189) /\
  (26189 = 26188 + 1 ->
   convert rpi_cm3 Humidity 26189 <= convert rpi_cm3 Humidity 26188 + 3).
Proof.
  apply (conversion_monotone_bounded rpi_cm3 Humidity 26188 26189);
    [left; reflexivity | lia | lia].
Defined.

(* ------------------------------------------------------------------ *)
(** ** Further properties: what reads do to the cache *)

Lemma get_current_frame (k : kernel) (q q' : quantity) (w : world) :
  q' <> q ->
  measurement_of q' (drvdata (snd (get_current k q w)))
  = measurement_of q' (drvdata w).
Proof.
  intros Hne.
  destruct (get_current_drvdata k q w) as [E | [Hs Hok]].
  - rewrite E. reflexivity.
  - destruct (get_current_refreshed k q w Hs Hok) as (_ & _ & _ & _ & Ho).
    apply Ho. exact Hne.
Qed.

Lemma read_world_of (k : kernel) (q : quantity) (attr channel val : Z)
  (w : world) :
  snd (si7006_read k (sensor_type q) attr channel val w) = w \/
  snd (si7006_read k (sensor_type q) attr channel val w)
  = snd (get_current k q w).
Proof.
  destruct q; cbn [sensor_type si7006_read get_current];
    unfold si7006_read_temperature, si7006_read_humidity;
    repeat match goal with
           | |- context [if ?b then _ else _] => destruct b
           end; try (left; reflexivity);
    right; unfold bind, ret;
    match goal with
    | |- context [?g k w] => destruct (g k w)
    end; reflexivity.
Qed.

(** X3: a read of any attribute of one quantity, on any channel, leaves all
    five cached fields of the other quantity as they were. *)
Theorem read_leaves_other_quantity (k : kernel) (q q' : quantity)
  (attr channel val : Z) (w : world) :
  q' <> q ->
  measurement_of q'
    (drvdata (snd (si7006_read k (sensor_type q) attr channel val w)))
  = measurement_of q' (drvdata w).
Proof.
  intros Hne.
  destruct (read_world_of k q attr channel val w) as [-> | ->].
  - reflexivity.
  - apply get_current_frame. exact Hne.
Qed.

Lemma read_leaves_other_quantity_witness :
  measurement_of Temperature
    (drvdata (snd (si7006_read rpi_cm3 (sensor_type Humidity) 1 0 0
                     sampled_healthy)))
  = measurement_of Temperature (drvdata sampled_healthy).
Proof.
  apply (read_leaves_other_quantity rpi_cm3 Humidity Temperature 1 0 0
           sampled_healthy).
  discriminate.
Defined.

(** Induction over the reachable states: a property of the private data
    that holds of zeroed data and survives every successful refresh holds
    in every reachable state. *)
Lemma reachable_invariant (k : kernel) (P : si7006_private -> Prop) :
  P kzalloc_si7006_private ->
  (forall q w,
     P (drvdata w) -> stale k q w = true -> 0 <= transport_status k q w ->
     P (drvdata (snd (get_current k q w)))) ->
  forall w, reachable k w -> P (drvdata w).
Proof.
  intros H0 Hrefresh w Hr.
  induction Hr as [w Hp | w w' Hr IH Hstep].
  - rewrite probe_drvdata. exact H0.
  - destruct Hstep as [type attr channel val w | ticks w].
    + destruct (read_world k type attr channel val w) as [-> | [q ->]];
        [exact IH |].
      destruct (get_current_drvdata k q w) as [-> | [Hs Hok]];
        [exact IH | apply Hrefresh; assumption].
    + exact IH.
Qed.

Lemma raw_code_unsigned_range (k : kernel) (buf : list byte) :
  char_is_signed k = false -> 0 <= raw_code k buf <= 65535.
Proof.
  intros Hu. rewrite raw_code_exact. unfold buf_at.
  rewrite !char_to_int_unsigned by exact Hu.
  pose proof (byte_range (nth 0 buf x00)).
  pose proof (byte_range (nth 1 buf x00)). lia.
Qed.

Lemma convert_in_scale (k : kernel) (q : quantity) (code : Z) :
  BITS_PER_LONG k = 32 \/ BITS_PER_LONG k = 64 ->
  0 <= code <= 65535 ->
  in_scale q (convert k q code).
Proof.
  intros Hw Hc. rewrite convert_exact by (assumption || lia).
  destruct q; unfold in_scale; rewrite Z.quot_div_nonneg by lia;
    Z.div_mod_to_equations; lia.
Qed.

Lemma in_scale_min_max (q : quantity) (a b : Z) :
  in_scale q a -> in_scale q b ->
  in_scale q (Z.min a b) /\ in_scale q (Z.max a b).
Proof. destruct q; unfold in_scale; lia. Qed.

(** X4: where plain [char] is unsigned, in every reachable state a valid
    quantity has its value, its minimum and its maximum inside the
    full-scale interval of its conversion (-46850 .. 128867 milli-degrees,
    -6000 .. 118998 milli-percent): the driver never stores anything a
    16-bit code cannot mean. *)
Theorem cached_values_in_scale (k : kernel) (q : quantity) (w : world) :
  char_is_signed k = false ->
  BITS_PER_LONG k = 32 \/ BITS_PER_LONG k = 64 ->
  reachable k w ->
  valid (measurement_of q (drvdata w)) = true ->
  in_scale q (value (measurement_of q (drvdata w))) /\
  in_scale q (minimum (measurement_of q (drvdata w))) /\
  in_scale q (maximum (measurement_of q (drvdata w))).
Proof.
  intros Hu Hw Hr. revert q.
  apply (reachable_invariant k
           (fun d => forall q,
              valid (measurement_of q d) = true ->
              in_scale q (value (measurement_of q d)) /\
              in_scale q (minimum (measurement_of q d)) /\
              in_scale q (maximum (measurement_of q d))));
    [| | exact Hr].
  - intros q Hv. destruct q; discriminate.
  - intros q w0 IH Hs Hok q' Hv.
    destruct (quantity_eq_dec q' q) as [-> | Hne].
    + destruct (get_current_refreshed k q w0 Hs Hok) as (_ & _ & _ & Hm & _).
      rewrite Hm in *. cbn [value minimum maximum valid] in *.
      pose proof (convert_in_scale k q (raw_code k (received q w0)) Hw
                    (raw_code_unsigned_range k _ Hu)) as Hin.
      destruct (valid (measurement_of q (drvdata w0))) eqn:Hv0.
      * destruct (IH q Hv0) as (_ & Hmin & Hmax).
        destruct (in_scale_min_max q _ _ Hmin Hin) as [H1 _].
        destruct (in_scale_min_max q _ _ Hmax Hin) as [_ H2].
        auto.
      * auto.
    + rewrite (get_current_frame k q q' w0 Hne) in *. apply IH. exact Hv.
Qed.

Lemma cached_values_in_scale_witness :
  let w := snd (si7006_read rpi_cm3 hwmon_humidity 1 0 0
                  (snd (si7006_i2c_probe rpi_cm3
                          (boot (si7006_chip xff xff) 5000)))) in
  let m := measurement_of Humidity (drvdata w) in
  value m = 118998 /\
  in_scale Humidity (value m) /\
  in_scale Humidity (minimum m) /\
  in_scale Humidity (maximum m).
Proof.
  split; [reflexivity |].
  apply (cached_values_in_scale rpi_cm3 Humidity).
  - reflexivity.
  - left. reflexivity.
  - apply (reach_step rpi_cm3
             (snd (si7006_i2c_probe rpi_cm3
                     (boot (si7006_chip xff xff) 5000)))).
    + apply reach_probe. reflexivity.
    + apply step_read.
  - reflexivity.
Defined.

Lemma read_accessor (k : kernel) (q : quantity) (a : attribute)
  (channel val : Z) (w : world) :
  kernel_ok k ->
  channel < 1 ->
  si7006_read k (sensor_type q) (attr_code k q a) channel val w
  = (0, fst (accessor k q a w), snd (accessor k q a w)).
Proof.
  intros Hk Hc. rewrite (read_refines_spec k _ _ _ _ _ Hk). unfold spec_read.
  replace (quantity_kind (sensor_type q)) with (Some q)
    by (destruct q; reflexivity).
  apply Z.ltb_lt in Hc. rewrite Hc.
  rewrite (attribute_kind_code k q a Hk). unfold bind, ret.
  destruct (accessor k q a w). reflexivity.
Qed.

Lemma unsampled_is_zero (k : kernel) (q : quantity) (w : world) :
  reachable k w ->
  valid (measurement_of q (drvdata w)) = false ->
  measurement_of q (drvdata w)
  = {| value := 0; minimum := 0; maximum := 0; valid := false;
       last_updated := 0 |}.
Proof.
  intros Hr. revert q.
  apply (reachable_invariant k
           (fun d => forall q,
              valid (measurement_of q d) = false ->
              measurement_of q d
              = {| value := 0; minimum := 0; maximum := 0; valid := false;
                   last_updated := 0 |}));
    [| | exact Hr].
  - intros q _. destruct q; reflexivity.
  - intros q w0 IH Hs Hok q' Hv.
    destruct (quantity_eq_dec q' q) as [-> | Hne].
    + destruct (get_current_refreshed k q w0 Hs Hok) as (_ & _ & _ & Hm & _).
      rewrite Hm in Hv. discriminate.
    + rewrite (get_current_frame k q q' w0 Hne) in *. apply IH. exact Hv.
Qed.

(** X5: in every reachable state, as long as no sample of a quantity has
    succeeded, its maximum and its minimum can be read all the same: the
    read reports success with the value 0 and touches neither the bus nor
    the world. *)
Theorem extrema_before_first_sample (k : kernel) (q : quantity)
  (a : attribute) (channel val : Z) (w : world) :
  kernel_ok k ->
  reachable k w ->
  valid (measurement_of q (drvdata w)) = false ->
  a <> Input ->
  channel < 1 ->
  si7006_read k (sensor_type q) (attr_code k q a) channel val w = (0, 0, w).
Proof.
  intros Hk Hr Hv Ha Hc.
  rewrite (read_accessor k q a channel val w Hk Hc).
  pose proof (unsampled_is_zero k q w Hr Hv) as Hz.
  destruct a; [congruence | |];
    destruct q; cbn in Hz |- *; inversion Hz; reflexivity.
Qed.

Lemma extrema_before_first_sample_witness :
  let w := snd (si7006_i2c_probe rpi_cm3 (boot (si7006_chip x66 x4c) 5000)) in
  si7006_read rpi_cm3 (sensor_type Temperature)
    (attr_code rpi_cm3 Temperature Max) 0 77 w
  = (0, 0, w).
Proof.
  apply (extrema_before_first_sample rpi_cm3 Temperature Max 0 77).
  - exact rpi_cm3_ok.
  - apply reach_probe. reflexivity.
  - reflexivity.
  - discriminate.
  - lia.
Defined.

Lemma get_current_widens (k : kernel) (q q' : quantity) (w : world) :
  valid (measurement_of q' (drvdata w)) = true ->
  maximum (measurement_of q' (drvdata w))
  <= maximum (measurement_of q' (drvdata (snd (get_current k q w)))) /\
  minimum (measurement_of q' (drvdata (snd (get_current k q w))))
  <= minimum (measurement_of q' (drvdata w)).
Proof.
  intros Hv.
  destruct (quantity_eq_dec q' q) as [-> | Hne].
  - destruct (get_current_drvdata k q w) as [E | [Hs Hok]].
    + rewrite E. lia.
    + destruct (get_current_refreshed k q w Hs Hok) as (_ & _ & _ & Hm & _).
      rewrite Hm, Hv. cbn [maximum minimum]. lia.
  - rewrite (get_current_frame k q q' w Hne). lia.
Qed.

(** X6: once a quantity is valid, no sequence of reads and waits ever
    lowers its stored maximum or raises its stored minimum. *)
Theorem extrema_only_widen (k : kernel) (q : quantity) (w w' : world) :
  steps k w w' ->
  valid (measurement_of q (drvdata w)) = true ->
  maximum (measurement_of q (drvdata w))
  <= maximum (measurement_of q (drvdata w')) /\
  minimum (measurement_of q (drvdata w'))
  <= minimum (measurement_of q (drvdata w)).
Proof.
  induction 1 as [w | w1 w2 w3 H12 IH H23]; intros Hv.
  - lia.
  - specialize (IH Hv).
    pose proof (steps_keep_valid k q w1 w2 H12 Hv) as Hv2.
    assert (Hstep :
      maximum (measurement_of q (drvdata w2))
      <= maximum (measurement_of q (drvdata w3)) /\
      minimum (measurement_of q (drvdata w3))
      <= minimum (measurement_of q (drvdata w2))).
    { destruct H23 as [type attr channel val w | ticks w].
      - destruct (read_world k type attr channel val w) as [-> | [q' ->]].
        + lia.
        + apply get_current_widens. exact Hv2.
      - cbn [idle snd drvdata]. lia. }
    lia.
Qed.

Lemma extrema_only_widen_witness :
  let w := sampled_healthy in
  let w' := snd (si7006_read rpi_cm3 hwmon_temp 1 0 0 w) in
  maximum (measurement_of Temperature (drvdata w))
  <= maximum (measurement_of Temperature (drvdata w')) /\
  minimum (measurement_of Temperature (drvdata w'))
  <= minimum (measurement_of Temperature (drvdata w)).
Proof.
  apply (extrema_only_widen rpi_cm3 Temperature sampled_healthy).
  - apply (steps_trans rpi_cm3 sampled_healthy sampled_healthy).
    + apply steps_refl.
    + apply step_read.
  - reflexivity.
Defined.

(** X7: in a reachable state, a read of the current value whose transport
    does not fail (it is served from the cache, or the transaction
    succeeds) returns a value that lies between the minimum and the maximum
    the driver reports right afterwards. *)
Theorem current_within_reported_extrema (k : kernel) (q : quantity)
  (w : world) :
  reachable k w ->
  (stale k q w = true -> 0 <= transport_status k q w) ->
  let v := fst (get_current k q w) in
  let w' := snd (get_current k q w) in
  fst (get_min q w') <= v <= fst (get_max q w').
Proof.
  intros Hr Hok v w'. subst v w'.
  assert (Hget :
    forall w0, fst (get_min q w0) = minimum (measurement_of q (drvdata w0)) /\
               fst (get_max q w0) = maximum (measurement_of q (drvdata w0)))
    by (intros w0; destruct q; split; reflexivity).
  destruct (Hget (snd (get_current k q w))) as [-> ->].
  destruct (stale k q w) eqn:Hs.
  - destruct (get_current_refreshed k q w Hs (Hok eq_refl))
      as (Hv & _ & _ & Hm & _).
    rewrite Hm, Hv. cbn [minimum maximum].
    destruct (valid (measurement_of q (drvdata w))); lia.
  - rewrite (get_current_cached k q w Hs). cbn [fst snd].
    apply (reachable_extrema k w Hr q).
    unfold stale in Hs. apply orb_false_iff in Hs. destruct Hs as [_ Hs].
    apply negb_false_iff in Hs. exact Hs.
Qed.

Lemma current_within_reported_extrema_witness :
  let w := snd (si7006_i2c_probe rpi_cm3 (boot (si7006_chip x66 x4c) 5000)) in
  let v := fst (get_current rpi_cm3 Humidity w) in
  let w' := snd (get_current rpi_cm3 Humidity w) in
  fst (get_min Humidity w') <= v <= fst (get_max Humidity w').
Proof.
  apply (current_within_reported_extrema rpi_cm3 Humidity).
  - apply reach_probe. reflexivity.
  - intros _. vm_compute. discriminate.
Defined.

(** On the error path the returned 0 need not lie between the reported
    extrema. *)
Lemma failed_read_outside_extrema :
  let w := sampled_then_glitch in
  let v := fst (get_current rpi_cm3 Temperature w) in
  let w' := snd (get_current rpi_cm3 Temperature w) in
  v = 0 /\ fst (get_min Temperature w') = 23367.
Proof. split; reflexivity. Qed.

(* ------------------------------------------------------------------ *)
(** ** Further properties: polling *)

Lemma never_acknowledged_status (k : kernel) (q : quantity) (w : world) :
  never_acknowledges w -> transport_status k q w < 0.
Proof.
  intros Hdead. unfold transport_status.
  pose proof (Hdead (wire (client w)) [command q]) as Hs.
  destruct q; unfold_master; cbn [command] in Hs;
    apply Z.ltb_lt in Hs; rewrite Hs; cbn [fst]; apply Z.ltb_lt; exact Hs.
Qed.

Lemma never_acknowledges_same_chip (w w' : world) :
  chip (client w') = chip (client w) ->
  never_acknowledges w -> never_acknowledges w'.
Proof. unfold never_acknowledges. intros ->. auto. Qed.

Lemma poll_cons (k : kernel) (q : quantity) (gap : Z) (gaps : list Z)
  (w : world) :
  poll k q (gap :: gaps) w
  = (fst (get_current k q (snd (idle k gap w)))
     :: fst (poll k q gaps (snd (get_current k q (snd (idle k gap w))))),
     snd (poll k q gaps (snd (get_current k q (snd (idle k gap w)))))).
Proof.
  cbn [poll]. unfold bind, ret.
  destruct (idle k gap w) as [[] w1]. cbn [snd].
  destruct (get_current k q w1) as [v w2]. cbn [fst snd].
  destruct (poll k q gaps w2) as [vs w3]. reflexivity.
Qed.

(** X8: on a bus where no write is acknowledged, polling a quantity that
    has never been sampled returns 0 every time, starts a new transport
    transaction at every single read whatever the gaps between them, and
    leaves the private data untouched. *)
Theorem polling_dead_bus (k : kernel) (q : quantity) (gaps : list Z)
  (w : world) :
  never_acknowledges w ->
  valid (measurement_of q (drvdata w)) = false ->
  fst (poll k q gaps w) = repeat 0 (length gaps) /\
  drvdata (snd (poll k q gaps w)) = drvdata w /\
  transactions (snd (poll k q gaps w)) = (transactions w + length gaps)%nat.
Proof.
  revert w. induction gaps as [| gap gaps IH]; intros w Hdead Hv.
  - cbn. repeat split. lia.
  - rewrite poll_cons. cbn [fst snd length repeat].
    set (w1 := snd (idle k gap w)).
    assert (Hdead1 : never_acknowledges w1) by exact Hdead.
    assert (Hv1 : valid (measurement_of q (drvdata w1)) = false) by exact Hv.
    pose proof (never_acknowledged_status k q w1 Hdead1) as Hf.
    rewrite (get_current_failed k q w1 (stale_when_invalid k q w1 Hv1) Hf).
    cbn [fst snd].
    destruct (get_master_world k q 0 w1) as (Hd & Hc & Ht).
    set (w2 := snd (get_master k q 0 w1)) in *.
    assert (Hdead2 : never_acknowledges w2)
      by (apply (never_acknowledges_same_chip w1 w2 Hc Hdead1)).
    assert (Hv2 : valid (measurement_of q (drvdata w2)) = false)
      by (rewrite Hd; exact Hv1).
    destruct (IH w2 Hdead2 Hv2) as (Hvs & Hdd & Htt).
    rewrite Hvs, Hdd, Htt, Hd, Ht.
    repeat split. unfold transactions, w1. cbn [idle snd client]. lia.
Qed.

Lemma polling_dead_bus_witness :
  let w := boot dead_bus 5000 in
  fst (poll rpi_cm3 Humidity [0; 1; 500] w) = repeat 0 3 /\
  drvdata (snd (poll rpi_cm3 Humidity [0; 1; 500] w)) = drvdata w /\
  transactions (snd (poll rpi_cm3 Humidity [0; 1; 500] w))
  = (transactions w + 3)%nat.
Proof.
  apply (polling_dead_bus rpi_cm3 Humidity [0; 1; 500] (boot dead_bus 5000)).
  - intros history bytes. vm_compute. reflexivity.
  - reflexivity.
Defined.

Lemma elapsed_after_idle (k : kernel) (now updated gap : Z) :
  kernel_ok k ->
  0 <= gap ->
  elapsed k now updated + gap <= HZ k ->
  elapsed k (unsigned_long k (now + gap)) updated
  = elapsed k now updated + gap.
Proof.
  intros (Hw & Hhz & _) Hg.
  unfold elapsed, unsigned_long, Cint.wrap_unsigned.
  destruct Hw as [-> | ->];
    [ change (2 ^ 32) with 4294967296
    | change (2 ^ 64) with 18446744073709551616 ];
    change (2 ^ 30) with 1073741824 in Hhz;
    intros He; Z.div_mod_to_equations; lia.
Qed.

Lemma elapsed_nonneg (k : kernel) (now updated : Z) :
  kernel_ok k -> 0 <= elapsed k now updated.
Proof.
  intros (Hw & _). unfold elapsed, unsigned_long, Cint.wrap_unsigned.
  apply Z.mod_pos_bound. destruct Hw as [-> | ->]; reflexivity.
Qed.

(** X9: with a valid sample in the cache, polling never goes to the bus
    while the waits add up to no more than what is left of the [HZ]-tick
    window: every read returns the cached value, no transaction is started
    and the private data stays as it is, however many reads are made. *)
Theorem polling_within_window (k : kernel) (q : quantity) (gaps : list Z)
  (w : world) :
  kernel_ok k ->
  valid (measurement_of q (drvdata w)) = true ->
  Forall (fun gap => 0 <= gap) gaps ->
  elapsed k (jiffies w) (last_updated (measurement_of q (drvdata w)))
  + fold_right Z.add 0 gaps <= HZ k ->
  fst (poll k q gaps w)
  = repeat (value (measurement_of q (drvdata w))) (length gaps) /\
  drvdata (snd (poll k q gaps w)) = drvdata w /\
  client (snd (poll k q gaps w)) = client w.
Proof.
  intros Hk. revert w.
  induction gaps as [| gap gaps IH]; intros w Hv Hpos Hsum.
  - cbn. repeat split.
  - inversion Hpos as [| g gs Hg Hgs]; subst.
    cbn [fold_right] in Hsum.
    assert (Hrest : 0 <= fold_right Z.add 0 gaps).
    { clear -Hgs. induction Hgs; cbn [fold_right]; lia. }
    rewrite poll_cons. cbn [fst snd length repeat].
    set (w1 := snd (idle k gap w)).
    assert (He : elapsed k (jiffies w1)
                   (last_updated (measurement_of q (drvdata w1)))
                 = elapsed k (jiffies w)
                     (last_updated (measurement_of q (drvdata w))) + gap).
    { apply elapsed_after_idle; [exact Hk | exact Hg | lia]. }
    assert (Hs : stale k q w1 = false).
    { destruct (stale k q w1) eqn:Hs; [| reflexivity].
      apply (stale_iff k q w1 Hk) in Hs. exfalso.
      destruct Hs as [Hs | Hs].
      - cbn [w1 idle snd drvdata] in Hs. congruence.
      - unfold refresh_due in Hs. lia. }
    rewrite (get_current_cached k q w1 Hs). cbn [fst snd].
    destruct (IH w1 Hv Hgs) as (Hvs & Hd & Hc); [lia |].
    rewrite Hvs, Hd, Hc. repeat split.
Qed.

Lemma polling_within_window_witness :
  let w := snd (si7006_get_temperature rpi_cm3
                  (boot (si7006_chip x66 x4c) 5000)) in
  fst (poll rpi_cm3 Temperature [0; 40; 60] w)
  = repeat (value (measurement_of Temperature (drvdata w))) 3 /\
  drvdata (snd (poll rpi_cm3 Temperature [0; 40; 60] w)) = drvdata w /\
  client (snd (poll rpi_cm3 Temperature [0; 40; 60] w)) = client w.
Proof.
  apply (polling_within_window rpi_cm3 Temperature [0; 40; 60]).
  - exact rpi_cm3_ok.
  - reflexivity.
  - repeat constructor; lia.
  - vm_compute. discriminate.
Defined.

(* ------------------------------------------------------------------ *)
(** ** Further properties: the hwmon callbacks agree with each other *)

(** X10: [si7006_is_visible] grants read-only access or nothing, never a
    write bit; it does so exactly for the attributes input, max and min of
    temperature and humidity, whatever the channel; and a read succeeds
    exactly when the attribute is visible and the channel is below 1. *)
Theorem visible_iff_readable (k : kernel) (type : hwmon_sensor_types)
  (attr channel val : Z) (w : world) :
  (si7006_is_visible k type attr channel = 0 \/
   si7006_is_visible k type attr channel = S_IRUGO) /\
  Z.land (si7006_is_visible k type attr channel) 146 = 0 /\
  (si7006_is_visible k type attr channel = S_IRUGO <->
   exists q a, type = sensor_type q /\ attr = attr_code k q a) /\
  (fst (fst (si7006_read k type attr channel val w)) = 0 <->
   si7006_is_visible k type attr channel = S_IRUGO /\ channel < 1).
Proof.
  assert (Hvis :
    si7006_is_visible k type attr channel = S_IRUGO <->
    exists q a, type = sensor_type q /\ attr = attr_code k q a).
  { split.
    - destruct type; cbn [si7006_is_visible]; try discriminate.
      + destruct (Z.eqb_spec attr (hwmon_temp_input k));
          [intros _; exists Temperature, Input; auto |].
        destruct (Z.eqb_spec attr (hwmon_temp_max k));
          [intros _; exists Temperature, Max; auto |].
        destruct (Z.eqb_spec attr (hwmon_temp_min k));
          [intros _; exists Temperature, Min; auto | discriminate].
      + destruct (Z.eqb_spec attr (hwmon_humidity_input k));
          [intros _; exists Humidity, Input; auto |].
        destruct (Z.eqb_spec attr (hwmon_humidity_max k));
          [intros _; exists Humidity, Max; auto |].
        destruct (Z.eqb_spec attr (hwmon_humidity_min k));
          [intros _; exists Humidity, Min; auto | discriminate].
    - intros (q & a & -> & ->).
      destruct q, a; cbn [si7006_is_visible sensor_type attr_code];
        rewrite Z.eqb_refl, ?orb_true_r; reflexivity. }
  split; [| split; [| split; [exact Hvis |]]].
  - destruct type; cbn [si7006_is_visible]; auto;
      match goal with
      | |- context [if ?b then _ else _] => destruct b; auto
      end.
  - destruct type; cbn [si7006_is_visible]; try reflexivity;
      match goal with
      | |- context [if ?b then _ else _] => destruct b; reflexivity
      end.
  - destruct type; cbn [si7006_read si7006_is_visible];
      try (cbn; split; [discriminate | intros [H _]; discriminate]).
    + unfold si7006_read_temperature, SI7006_NUM_CH_TEMP, bind, ret.
      destruct (attr =? hwmon_temp_input k), (attr =? hwmon_temp_max k),
        (attr =? hwmon_temp_min k), (Z.ltb_spec channel 1);
        cbn [orb];
        repeat match goal with
               | |- context [si7006_get_temperature k w] =>
                   destruct (si7006_get_temperature k w)
               end;
        cbn; split; try tauto; try discriminate;
        intros [H1 H2]; try discriminate; lia.
    + unfold si7006_read_humidity, SI7006_NUM_CH_TEMP, bind, ret.
      destruct (attr =? hwmon_humidity_input k),
        (attr =? hwmon_humidity_max k),
        (attr =? hwmon_humidity_min k), (Z.ltb_spec channel 1);
        cbn [orb];
        repeat match goal with
               | |- context [si7006_get_humidity k w] =>
                   destruct (si7006_get_humidity k w)
               end;
        cbn; split; try tauto; try discriminate;
        intros [H1 H2]; try discriminate; lia.
Qed.

(** X11: [si7006_read_string] yields a label exactly for the sensor types
    that have a visible attribute, two different labels for the two types,
    and [-EOPNOTSUPP] without a label for every other type. *)
Theorem label_iff_visible_type (k : kernel) (type : hwmon_sensor_types) :
  (fst (si7006_read_string type) = 0 <->
   exists attr, si7006_is_visible k type attr 0 = S_IRUGO) /\
  (fst (si7006_read_string type) = 0 \/
   si7006_read_string type = (- EOPNOTSUPP, None)) /\
  (fst (si7006_read_string type) = 0 -> snd (si7006_read_string type) <> None)
  /\
  snd (si7006_read_string hwmon_temp) <> snd (si7006_read_string hwmon_humidity).
Proof.
  repeat apply conj.
  - intros H. destruct type; try discriminate H.
    + exists (hwmon_temp_input k). cbn. rewrite Z.eqb_refl. reflexivity.
    + exists (hwmon_humidity_input k). cbn. rewrite Z.eqb_refl. reflexivity.
  - intros [attr H]. destruct type; try discriminate H; reflexivity.
  - destruct type; auto.
  - destruct type; cbn; intros H; try discriminate H; discriminate.
  - discriminate.
Qed.

(* ------------------------------------------------------------------ *)
(** ** Further properties: identification and probe *)

(** What the identification returns, read off the two replies of the bus. *)
Lemma device_id_replies (k : kernel) (id : Z) (w : world) :
  let sent := chip (client w) (wire (client w)) (I2C_WR [xfc; xc9]) in
  let got := chip (client w) (wire (client w) ++ [I2C_WR [xfc; xc9]])
                  (I2C_RD 6) in
  drvdata (snd (si7006_get_device_id k id w)) = drvdata w /\
  (reply_ret sent < 0 ->
   fst (si7006_get_device_id k id w) = (reply_ret sent, id)) /\
  (0 <= reply_ret sent -> reply_ret got < 0 ->
   fst (si7006_get_device_id k id w) = (reply_ret got, id)) /\
  (0 <= reply_ret sent -> 0 <= reply_ret got ->
   fst (si7006_get_device_id k id w)
   = (0, char_to_int k (nth 0 (overlay (firstn 6 (reply_data got))
                                      [xfc; xc9]) x00))).
Proof.
  unfold_device_id; cbn [client chip wire firstn];
    repeat match goal with
           | |- context [if ?b then _ else _] =>
               let E := fresh "E" in
               destruct b eqn:E;
               [apply Z.ltb_lt in E | apply Z.ltb_ge in E]
           end;
    cbn [fst snd drvdata client chip wire] in *;
    repeat split; intros; try reflexivity; try lia.
  unfold buf_at.
  destruct (reply_data
              (chip (client w) (wire (client w) ++ [I2C_WR [xfc; xc9]])
                    (I2C_RD 6))); reflexivity.
Qed.

Lemma first_byte_is_six (data : list byte) :
  nth 0 (overlay (firstn 6 data) [xfc; xc9]) x00 = x06 <->
  nth 0 data x00 = x06.
Proof.
  destruct data as [| b rest]; cbn; [split; discriminate | reflexivity].
Qed.

(** X12: [si7006_get_device_id] writes exactly the two command bytes
    [0xFC 0xC9]; if the write fails its status is returned, [*id] is
    untouched and no read is attempted; otherwise exactly one six-byte read
    follows, whose failure is returned with [*id] untouched.  After a read
    that did not fail, [*id] is the first byte of the function's own
    buffer: the first byte delivered, or the command byte [0xFC] still
    there if the read delivered nothing.  The private data is never
    touched. *)
Theorem device_id_on_the_wire (k : kernel) (id : Z) (w : world) :
  let w' := snd (si7006_get_device_id k id w) in
  let sent := chip (client w) (wire (client w)) (I2C_WR [xfc; xc9]) in
  let got := chip (client w) (wire (client w) ++ [I2C_WR [xfc; xc9]])
                  (I2C_RD 6) in
  drvdata w' = drvdata w /\
  chip (client w') = chip (client w) /\
  (reply_ret sent < 0 ->
   wire (client w') = wire (client w) ++ [I2C_WR [xfc; xc9]] /\
   fst (si7006_get_device_id k id w) = (reply_ret sent, id)) /\
  (0 <= reply_ret sent ->
   wire (client w') = wire (client w) ++ [I2C_WR [xfc; xc9]; I2C_RD 6] /\
   (reply_ret got < 0 ->
    fst (si7006_get_device_id k id w) = (reply_ret got, id)) /\
   (0 <= reply_ret got ->
    fst (si7006_get_device_id k id w)
    = (0, char_to_int k match reply_data got with
                        | b :: _ => b
                        | [] => xfc
                        end))).
Proof.
  unfold_device_id; cbn [client chip wire firstn];
    repeat match goal with
           | |- context [if ?b then _ else _] =>
               let E := fresh "E" in
               destruct b eqn:E;
               [apply Z.ltb_lt in E | apply Z.ltb_ge in E]
           end;
    cbn [fst snd drvdata client chip wire] in *;
    rewrite <- ?app_assoc; cbn [app];
    repeat split; intros; try reflexivity; try lia.
  unfold buf_at.
  destruct (reply_data
              (chip (client w) (wire (client w) ++ [I2C_WR [xfc; xc9]])
                    (I2C_RD 6))); reflexivity.
Qed.

Lemma device_id_on_the_wire_witness :
  fst (si7006_get_device_id rpi_cm3 0 (boot (si7006_chip x66 x4c) 5000))
  = (0, 6) /\
  fst (si7006_get_device_id rpi_cm3 0 (boot mute_chip 5000)) = (0, 252).
Proof.
  split.
  - apply (device_id_on_the_wire rpi_cm3 0
             (boot (si7006_chip x66 x4c) 5000));
      vm_compute; discriminate.
  - apply (device_id_on_the_wire rpi_cm3 0 (boot mute_chip 5000));
      vm_compute; discriminate.
Defined.

Lemma char_is_six (k : kernel) (b : byte) :
  char_to_int k b = ID_SI7006 <-> b = x06.
Proof.
  split.
  - intros H. unfold char_to_int, ID_SI7006 in H.
    pose proof (byte_range b) as Hb.
    assert (Hn : Byte.to_N b = Byte.to_N x06).
    { destruct (char_is_signed k && (128 <=? Z.of_N (Byte.to_N b)));
        change (Byte.to_N x06) with 6%N; lia. }
    pose proof (Byte.of_to_N b) as H1. pose proof (Byte.of_to_N x06) as H2.
    rewrite Hn in H1. congruence.
  - intros ->. unfold char_to_int. cbn.
    rewrite andb_false_r. reflexivity.
Qed.

(** X13: the probe fails with [-ENOMEM], before touching the bus or the
    private data, when no memory is to be had; otherwise it zeroes the
    private data and fails with [-ENXIO] unless the identification
    transaction succeeds and its first byte is [0x06] (a bus error is
    reported as [-ENXIO] too, not as the bus errno); only then is the
    outcome that of the hwmon registration.  It returns 0 exactly when all
    three succeed, and then it is the probe the driver's states start from. *)
Theorem probe_outcome (k : kernel) (h : probe_host) (w : world) :
  let r := fst (si7006_i2c_probe_on k h w) in
  let sent := chip (client w) (wire (client w)) (I2C_WR [xfc; xc9]) in
  let got := chip (client w) (wire (client w) ++ [I2C_WR [xfc; xc9]])
                  (I2C_RD 6) in
  let identified :=
    0 <= reply_ret sent /\ 0 <= reply_ret got /\
    nth 0 (reply_data got) x00 = x06 in
  (kzalloc_ok h = false -> si7006_i2c_probe_on k h w = (- ENOMEM, w)) /\
  (kzalloc_ok h = true ->
   drvdata (snd (si7006_i2c_probe_on k h w)) = kzalloc_si7006_private) /\
  (kzalloc_ok h = true -> ~ identified -> r = - ENXIO) /\
  (kzalloc_ok h = true -> identified ->
   r = match hwmon_register_errno h with
       | Some errno => Z.neg errno
       | None => 0
       end) /\
  (r = 0 <->
   kzalloc_ok h = true /\ identified /\ hwmon_register_errno h = None) /\
  (kzalloc_ok h = true -> hwmon_register_errno h = None ->
   si7006_i2c_probe_on k h w = si7006_i2c_probe k w).
Proof.
  intros r sent got identified.
  assert (Hmem : kzalloc_ok h = false ->
                 si7006_i2c_probe_on k h w = (- ENOMEM, w)).
  { intros E. unfold si7006_i2c_probe_on. rewrite E. reflexivity. }
  set (w0 := {| jiffies := jiffies w; client := client w;
                drvdata := kzalloc_si7006_private; stack := stack w |}).
  destruct (device_id_replies k 0 w0) as (Hd & Hfail & Hrf & Hrk).
  change (client w0) with (client w) in Hfail, Hrf, Hrk.
  fold sent in Hfail, Hrf, Hrk. fold got in Hrf, Hrk.
  assert (Hrun : kzalloc_ok h = true ->
    si7006_i2c_probe_on k h w
    = (if negb (snd (fst (si7006_get_device_id k 0 w0)) =? ID_SI7006)
       then - ENXIO
       else match hwmon_register_errno h with
            | Some errno => Z.neg errno
            | None => 0
            end,
       snd (si7006_get_device_id k 0 w0))).
  { intros E. unfold si7006_i2c_probe_on. rewrite E. cbn [negb].
    unfold bind, store, ret. fold w0.
    destruct (si7006_get_device_id k 0 w0) as [[s i] w1]. cbn [fst snd].
    destruct (negb (i =? ID_SI7006)); [reflexivity |].
    destruct (hwmon_register_errno h); reflexivity. }
  assert (Hid : snd (fst (si7006_get_device_id k 0 w0)) = ID_SI7006 <->
                identified).
  { unfold identified.
    destruct (Z.ltb_spec (reply_ret sent) 0) as [Hs | Hs].
    - rewrite (Hfail Hs). cbn. unfold ID_SI7006.
      split; [discriminate | lia].
    - destruct (Z.ltb_spec (reply_ret got) 0) as [Hg | Hg].
      + rewrite (Hrf Hs Hg). cbn. unfold ID_SI7006.
        split; [discriminate | lia].
      + rewrite (Hrk Hs Hg). cbn [fst snd].
        rewrite char_is_six, first_byte_is_six. tauto. }
  assert (Hneg : forall p, Z.neg p <> 0) by (intros p; discriminate).
  repeat apply conj.
  - exact Hmem.
  - intros E. rewrite (Hrun E). cbn [snd]. exact Hd.
  - intros E Hn. subst r. rewrite (Hrun E). cbn [fst].
    destruct (Z.eqb_spec (snd (fst (si7006_get_device_id k 0 w0))) ID_SI7006)
      as [Heq | Hne]; [apply Hid in Heq; contradiction | reflexivity].
  - intros E Hyes. subst r. rewrite (Hrun E). cbn [fst].
    apply Hid in Hyes. rewrite Hyes, Z.eqb_refl. reflexivity.
  - intros H0. subst r.
    destruct (kzalloc_ok h) eqn:E;
      [| rewrite (Hmem eq_refl) in H0; discriminate].
    rewrite (Hrun eq_refl) in H0. cbn [fst] in H0.
    destruct (Z.eqb_spec (snd (fst (si7006_get_device_id k 0 w0))) ID_SI7006)
      as [Heq | Hne]; [| discriminate].
    cbn [negb] in H0. apply Hid in Heq.
    destruct (hwmon_register_errno h); [discriminate | auto].
  - intros (E & Hyes & Hreg). subst r. rewrite (Hrun E). cbn [fst].
    apply Hid in Hyes. rewrite Hyes, Z.eqb_refl, Hreg. reflexivity.
  - intros E Hreg. rewrite (Hrun E), Hreg.
    unfold si7006_i2c_probe. unfold bind, store, ret. fold w0.
    destruct (si7006_get_device_id k 0 w0) as [[s i] w1]. cbn [fst snd].
    destruct (negb (i =? ID_SI7006)); reflexivity.
Qed.

Lemma probe_outcome_witness :
  fst (si7006_i2c_probe_on rpi_cm3
         {| kzalloc_ok := true; hwmon_register_errno := None |}
         (boot (si7006_chip x66 x4c) 5000)) = 0 /\
  fst (si7006_i2c_probe_on rpi_cm3
         {| kzalloc_ok := true; hwmon_register_errno := None |}
         (boot dead_bus 5000)) = - ENXIO.
Proof.
  split.
  - apply (probe_outcome rpi_cm3
             {| kzalloc_ok := true; hwmon_register_errno := None |}
             (boot (si7006_chip x66 x4c) 5000)).
    repeat split; vm_compute; discriminate.
  - apply (probe_outcome rpi_cm3
             {| kzalloc_ok := true; hwmon_register_errno := None |}
             (boot dead_bus 5000)).
    + reflexivity.
    + intros (H & _). vm_compute in H. apply H. reflexivity.
Defined.

(* ------------------------------------------------------------------ *)
(** ** Further properties: what the driver puts on the bus *)

Lemma measurement_traffic_app (l1 l2 : list i2c_msg) :
  measurement_traffic l1 -> measurement_traffic l2 ->
  measurement_traffic (l1 ++ l2).
Proof.
  induction 1 as [| q rest _ IH | q rest _ IH]; intros H2; cbn [app].
  - exact H2.
  - apply traffic_nak. apply IH. exact H2.
  - apply traffic_read. apply IH. exact H2.
Qed.

Lemma get_master_wire (k : kernel) (q : quantity) (v : Z) (w : world) :
  chip (client (snd (get_master k q v w))) = chip (client w) /\
  exists msgs,
    wire (client (snd (get_master k q v w))) = wire (client w) ++ msgs /\
    measurement_traffic msgs.
Proof.
  split; [apply get_master_world |].
  destruct q; unfold_master; cbn [client chip wire];
    repeat match goal with
           | |- context [if ?b then _ else _] => destruct b
           end;
    cbn [snd client wire]; rewrite <- ?app_assoc; cbn [app];
    eexists; (split; [reflexivity |]);
    first [ apply (traffic_nak Temperature); constructor
          | apply (traffic_read Temperature); constructor
          | apply (traffic_nak Humidity); constructor
          | apply (traffic_read Humidity); constructor ].
Qed.

Lemma get_current_wire (k : kernel) (q : quantity) (w : world) :
  chip (client (snd (get_current k q w))) = chip (client w) /\
  exists msgs,
    wire (client (snd (get_current k q w))) = wire (client w) ++ msgs /\
    measurement_traffic msgs.
Proof.
  destruct (stale k q w) eqn:Hs.
  - destruct (Z.ltb_spec (transport_status k q w) 0) as [Hf | Hok].
    + rewrite (get_current_failed k q w Hs Hf). cbn [snd].
      apply get_master_wire.
    + destruct (get_current_refreshed k q w Hs Hok) as (_ & _ & -> & _).
      apply get_master_wire.
  - rewrite (get_current_cached k q w Hs). cbn [snd].
    split; [reflexivity |]. exists []. rewrite app_nil_r.
    split; [reflexivity | constructor].
Qed.

(** X14: whatever sequence of reads and waits the host makes, the device
    stays the same and everything the driver adds to the bus is a sequence
    of measurement transactions: a one-byte write of [0xE3] or [0xE5], each
    followed by at most one two-byte read.  It never sends any other
    command (no reset, no register or heater write). *)
Theorem only_measurement_traffic (k : kernel) (w w' : world) :
  steps k w w' ->
  chip (client w') = chip (client w) /\
  exists msgs,
    wire (client w') = wire (client w) ++ msgs /\ measurement_traffic msgs.
Proof.
  induction 1 as [w | w1 w2 w3 H12 IH H23].
  - split; [reflexivity |]. exists []. rewrite app_nil_r.
    split; [reflexivity | constructor].
  - destruct IH as (Hc & msgs & Hw & Ht).
    assert (Hstep :
      chip (client w3) = chip (client w2) /\
      exists msgs',
        wire (client w3) = wire (client w2) ++ msgs' /\
        measurement_traffic msgs').
    { destruct H23 as [type attr channel val w | ticks w].
      - destruct (read_world k type attr channel val w) as [-> | [q ->]].
        + split; [reflexivity |]. exists []. rewrite app_nil_r.
          split; [reflexivity | constructor].
        + apply get_current_wire.
      - cbn [idle snd client]. split; [reflexivity |].
        exists []. rewrite app_nil_r. split; [reflexivity | constructor]. }
    destruct Hstep as (Hc' & msgs' & Hw' & Ht').
    split; [congruence |].
    exists (msgs ++ msgs'). rewrite Hw', Hw, app_assoc.
    split; [reflexivity | apply measurement_traffic_app; assumption].
Qed.

Lemma only_measurement_traffic_witness :
  let w := sampled_then_glitch in
  let w' := snd (si7006_read rpi_cm3 hwmon_humidity 1 0 0
                   (snd (si7006_read rpi_cm3 hwmon_temp 1 0 0 w))) in
  chip (client w') = chip (client w) /\
  exists msgs,
    wire (client w') = wire (client w) ++ msgs /\ measurement_traffic msgs.
Proof.
  apply (only_measurement_traffic rpi_cm3 sampled_then_glitch).
  apply (steps_trans rpi_cm3 sampled_then_glitch
           (snd (si7006_read rpi_cm3 hwmon_temp 1 0 0 sampled_then_glitch))).
  - apply (steps_trans rpi_cm3 sampled_then_glitch sampled_then_glitch).
    + apply steps_refl.
    + apply step_read.
  - apply step_read.
Defined.
